(** * Daily Light Integral sliding window: a model of
      [custom_components/plant/plant_meters.py], class [PlantDailyLightIntegral]

    The entity keeps a list of [(timestamp, increment)] pairs, adds one on
    every positive change of the source sensor, drops the pairs older than
    24 hours on a timer and publishes the rounded sum of what is left.

    Idealisation of the numbers.  Python's [float] is an IEEE double; here a
    finite float is an exact rational (no rounding error, no overflow) and
    the three special values inf, -inf and nan are kept, because [float()]
    parses them and the comparison [increment > 0] treats them differently.
    Timestamps ([datetime]) are integers, microseconds since an arbitrary
    epoch. *)

From Stdlib Require Import ZArith QArith Qabs Qround List String Ascii Bool Lia.
Import ListNotations.

Local Open Scope Z_scope.

(** ** Python values *)

Module Py.

(** Exceptions that the modelled code can meet. *)
Inductive exn : Type :=
| ValueError
| TypeError
| AttributeError
| OverflowError.

(** The outcome of evaluating a Python expression or statement. *)
Inductive result (A : Type) : Type :=
| Ok (a : A)
| Raise (e : exn).
Arguments Ok {A} a.
Arguments Raise {A} e.

Definition bind {A B : Type} (c : result A) (k : A -> result B) : result B :=
  match c with
  | Ok a => k a
  | Raise e => Raise e
  end.

(** [try: body except (e1, e2, ...): handler] *)
Definition try_except {A : Type} (body : result A) (caught : exn -> bool)
    (handler : result A) : result A :=
  match body with
  | Ok a => Ok a
  | Raise e => if caught e then handler else Raise e
  end.

(** The tuple [(ValueError, TypeError)] of both [except] clauses. *)
Definition ValueError_or_TypeError (e : exn) : bool :=
  match e with
  | ValueError => true
  | TypeError => true
  | AttributeError => false
  | OverflowError => false
  end.

(** A Python float: an exact rational, or one of the special values. *)
Inductive pyfloat : Type :=
| Fin (q : Q)
| PInf
| NInf
| NaN.

(** Numeric equality of floats as values ([Qeq] on the finite ones). nan is
    related to itself here: the relation compares what is stored, it is not
    Python's [==]. *)
Definition feq (x y : pyfloat) : Prop :=
  match x, y with
  | Fin a, Fin b => (a == b)%Q
  | PInf, PInf => True
  | NInf, NInf => True
  | NaN, NaN => True
  | _, _ => False
  end.

Definition fneg (x : pyfloat) : pyfloat :=
  match x with
  | Fin a => Fin (- a)%Q
  | PInf => NInf
  | NInf => PInf
  | NaN => NaN
  end.

(** [x + y] *)
Definition fadd (x y : pyfloat) : pyfloat :=
  match x, y with
  | Fin a, Fin b => Fin (a + b)%Q
  | NaN, _ | _, NaN => NaN
  | PInf, NInf | NInf, PInf => NaN
  | PInf, _ | _, PInf => PInf
  | NInf, _ | _, NInf => NInf
  end.

(** [x - y] *)
Definition fsub (x y : pyfloat) : pyfloat :=
  match x, y with
  | Fin a, Fin b => Fin (a - b)%Q
  | NaN, _ | _, NaN => NaN
  | PInf, PInf | NInf, NInf => NaN
  | PInf, _ | _, NInf => PInf
  | NInf, _ | _, PInf => NInf
  end.

(** [x > 0] *)
Definition fgt0 (x : pyfloat) : bool :=
  match x with
  | Fin a => negb (Qle_bool a 0)
  | PInf => true
  | NInf => false
  | NaN => false
  end.

(** Nearest integer to [a * 100], ties to the even one. *)
Definition round_half_even_100 (a : Q) : Z :=
  let n := Qnum a * 100 in
  let d := Zpos (Qden a) in
  let f := n / d in
  match (2 * (n mod d)) ?= d with
  | Lt => f
  | Gt => f + 1
  | Eq => if Z.even f then f else f + 1
  end.

(** [round(x, 2)]: nan and the infinities round to themselves. *)
Definition round2 (x : pyfloat) : pyfloat :=
  match x with
  | Fin a => Fin (Qred (round_half_even_100 a # 100))
  | PInf => PInf
  | NInf => NInf
  | NaN => NaN
  end.

(** [sum(xs)]: a left fold that starts from [0]. *)
Definition sum (xs : list pyfloat) : pyfloat :=
  fold_left fadd xs (Fin 0).

(** *** [float(s)] for a string [s]

    The grammar of CPython for ASCII input: blanks around the literal are
    dropped, underscores may stand between digits, then an optional sign
    and either inf, infinity or nan in any case, or a decimal literal with
    an optional fraction and exponent. *)

Definition is_space (c : ascii) : bool :=
  let n := nat_of_ascii c in
  (Nat.eqb n 32 || (Nat.leb 9 n && Nat.leb n 13))%bool.

Definition is_digit (c : ascii) : bool :=
  let n := nat_of_ascii c in
  (Nat.leb 48 n && Nat.leb n 57)%bool.

Definition digit_value (c : ascii) : Z := Z.of_nat (nat_of_ascii c) - 48.

Definition lower (c : ascii) : ascii :=
  let n := nat_of_ascii c in
  if (Nat.leb 65 n && Nat.leb n 90)%bool then ascii_of_nat (n + 32) else c.

Fixpoint drop_spaces (s : list ascii) : list ascii :=
  match s with
  | c :: s' => if is_space c then drop_spaces s' else s
  | [] => []
  end.

Definition strip (s : list ascii) : list ascii :=
  rev (drop_spaces (rev (drop_spaces s))).

(** Underscores may only stand between two digits; they are removed. *)
Fixpoint drop_underscores (prev : option ascii) (s : list ascii)
    : option (list ascii) :=
  match s with
  | [] =>
      match prev with
      | Some "_"%char => None
      | _ => Some []
      end
  | c :: s' =>
      if Ascii.eqb c "_" then
        match prev with
        | Some p => if is_digit p then drop_underscores (Some c) s' else None
        | None => None
        end
      else
        match prev with
        | Some "_"%char =>
            if is_digit c
            then option_map (cons c) (drop_underscores (Some c) s')
            else None
        | _ => option_map (cons c) (drop_underscores (Some c) s')
        end
  end.

Fixpoint take_digits (s : list ascii) : list ascii * list ascii :=
  match s with
  | c :: s' =>
      if is_digit c
      then let (ds, rest) := take_digits s' in (c :: ds, rest)
      else ([], s)
  | [] => ([], [])
  end.

Definition digits_value (ds : list ascii) : Z :=
  fold_left (fun acc c => 10 * acc + digit_value c) ds 0.

(** The sign of a literal: [true] for a leading minus. *)
Definition take_sign (s : list ascii) : bool * list ascii :=
  match s with
  | "-"%char :: s' => (true, s')
  | "+"%char :: s' => (false, s')
  | _ => (false, s)
  end.

(** An exponent part [e[+-]digits] at the end of the literal, or nothing. *)
Definition parse_exponent (s : list ascii) : option Z :=
  match s with
  | [] => Some 0
  | c :: s' =>
      if Ascii.eqb (lower c) "e" then
        let (neg, s'') := take_sign s' in
        match take_digits s'' with
        | (d :: ds, []) =>
            let e := digits_value (d :: ds) in
            Some (if neg then - e else e)
        | _ => None
        end
      else None
  end.

(** [mantissa * 10 ^ scale] as a rational. *)
Definition scale10 (mantissa scale : Z) : Q :=
  if 0 <=? scale
  then (mantissa * 10 ^ scale) # 1
  else mantissa # (Z.to_pos (10 ^ (- scale))).

Definition parse_decimal (s : list ascii) : option Q :=
  let (ip, rest) := take_digits s in
  let (fp, rest') :=
    match rest with
    | "."%char :: r => take_digits r
    | _ => ([], rest)
    end in
  match ip ++ fp with
  | [] => None
  | ds =>
      match parse_exponent rest' with
      | Some e => Some (scale10 (digits_value ds) (e - Z.of_nat (List.length fp)))
      | None => None
      end
  end.

Definition parse_float (s : string) : option pyfloat :=
  match drop_underscores None (strip (list_ascii_of_string s)) with
  | None => None
  | Some body =>
      let (neg, rest) := take_sign body in
      let word := string_of_list_ascii (map lower rest) in
      if (String.eqb word "inf" || String.eqb word "infinity")%bool
      then Some (if neg then NInf else PInf)
      else if String.eqb word "nan" then Some NaN
      else
        match parse_decimal rest with
        | Some q => Some (Fin (if neg then - q else q)%Q)
        | None => None
        end
  end.

(** [float(s)]: the parsed number, or [ValueError]. *)
Definition float (s : string) : result pyfloat :=
  match parse_float s with
  | Some x => Ok x
  | None => Raise ValueError
  end.

End Py.

Import Py.

Notation "x <- c ;; k" := (Py.bind c (fun x => k))
  (at level 61, c at next level, right associativity).

Local Open Scope string_scope.
Local Open Scope list_scope.
Local Open Scope Z_scope.

(** ** Home Assistant objects *)

(** [homeassistant.const] *)
Definition STATE_UNKNOWN : string := "unknown".
Definition STATE_UNAVAILABLE : string := "unavailable".

(** [homeassistant.core.State]: only the attribute [state] is read. *)
Record State : Type := { state : string }.

(** The [data] dictionary of a state-change event; a missing key and a
    [None] entry are both [None] here ([dict.get] does not tell them apart). *)
Record Event : Type := {
  new_state : option State;
  old_state : option State
}.

(** A naive [datetime], in microseconds, and [timedelta(hours=h)]. *)
Definition datetime : Type := Z.
Definition timedelta_hours (h : Z) : Z := h * 3600 * 1000000.

(** [s not in (STATE_UNKNOWN, STATE_UNAVAILABLE)] *)
Definition not_unknown_or_unavailable (s : string) : bool :=
  negb (String.eqb s STATE_UNKNOWN || String.eqb s STATE_UNAVAILABLE).

(** ** The entity *)

(** The attributes of [PlantDailyLightIntegral] that its methods read or
    write. [ha_states] is the state sink: the values handed to Home
    Assistant by [async_write_ha_state], oldest first. *)
Record PlantDailyLightIntegral : Type := {
  _data_points : list (datetime * pyfloat);
  _last_value : pyfloat;
  _attr_native_value : pyfloat;
  ha_states : list pyfloat
}.

Definition set_data_points (self : PlantDailyLightIntegral)
    (dps : list (datetime * pyfloat)) : PlantDailyLightIntegral :=
  {| _data_points := dps;
     _last_value := _last_value self;
     _attr_native_value := _attr_native_value self;
     ha_states := ha_states self |}.

Definition set_native_value (self : PlantDailyLightIntegral) (v : pyfloat)
    : PlantDailyLightIntegral :=
  {| _data_points := _data_points self;
     _last_value := _last_value self;
     _attr_native_value := v;
     ha_states := ha_states self |}.

(** [self.async_write_ha_state()]: the current value goes to the sink. *)
Definition async_write_ha_state (self : PlantDailyLightIntegral)
    : PlantDailyLightIntegral :=
  {| _data_points := _data_points self;
     _last_value := _last_value self;
     _attr_native_value := _attr_native_value self;
     ha_states := ha_states self ++ [_attr_native_value self] |}.

(** [__init__]: empty window, value 0, nothing written yet. *)
Definition __init__ : PlantDailyLightIntegral :=
  {| _data_points := [];
     _last_value := Fin 0;
     _attr_native_value := Fin 0;
     ha_states := [] |}.

(** The [native_value] property of [SensorEntity]. *)
Definition native_value (self : PlantDailyLightIntegral) : pyfloat :=
  _attr_native_value self.

(** The two classes of [homeassistant.components.sensor] that the entities
    of the module derive from. *)
Inductive sensor_base : Type :=
| SensorEntity
| RestoreSensor.

(** Whether an instance has the method [async_get_last_state]. Home
    Assistant defines it in [RestoreEntity], which [RestoreSensor] inherits
    and [SensorEntity] does not. *)
Definition provides_async_get_last_state (base : sensor_base) : bool :=
  match base with
  | SensorEntity => false
  | RestoreSensor => true
  end.

(** [self.async_get_last_state()] on an instance of a class derived from
    [base]; [stored] is the state that the restore storage holds for the
    entity. Looking up a method that the class does not have raises
    [AttributeError]. *)
Definition async_get_last_state (base : sensor_base) (stored : option State)
    : result (option State) :=
  if provides_async_get_last_state base then Ok stored
  else Raise AttributeError.

(** The body of [async_added_to_hass], for a class derived from [base].
    The call of [async_get_last_state] stands before the [try], so what it
    raises leaves the method. The two registrations that follow the restore
    (state-change tracking and the five-minute timer) decide when the other
    methods run and change no attribute. *)
Definition async_added_to_hass_of (base : sensor_base)
    (self : PlantDailyLightIntegral) (stored : option State)
    : result PlantDailyLightIntegral :=
  last_state <- async_get_last_state base stored ;;
  match last_state with
  | Some st =>
      if not_unknown_or_unavailable (state st) then
        try_except
          (v <- float (state st) ;;
           Ok (set_native_value self v))
          ValueError_or_TypeError
          (Ok (set_native_value self (Fin 0)))
      else Ok self
  | None => Ok self
  end.

(** [class PlantDailyLightIntegral(SensorEntity)] *)
Definition PlantDailyLightIntegral_base : sensor_base := SensorEntity.

(** [async_added_to_hass] of [PlantDailyLightIntegral]. *)
Definition async_added_to_hass (self : PlantDailyLightIntegral)
    (stored : option State) : result PlantDailyLightIntegral :=
  async_added_to_hass_of PlantDailyLightIntegral_base self stored.

(** [_update_value] *)
Definition _update_value (self : PlantDailyLightIntegral)
    : PlantDailyLightIntegral :=
  let self' :=
    match _data_points self with
    | [] => set_native_value self (Fin 0)
    | _ :: _ =>
        let total := sum (map snd (_data_points self)) in
        set_native_value self (round2 total)
    end in
  async_write_ha_state self'.

(** The value [old_value] has when the increment is computed in
    [_source_changed]. *)
Definition old_value_of (event : Event) : result pyfloat :=
  match old_state event with
  | Some os =>
      if not_unknown_or_unavailable (state os) then
        try_except (float (state os)) ValueError_or_TypeError (Ok (Fin 0))
      else Ok (Fin 0)
  | None => Ok (Fin 0)
  end.

(** [_source_changed]; [now] is the reading of [datetime.now()]. *)
Definition _source_changed (self : PlantDailyLightIntegral) (event : Event)
    (now : datetime) : result PlantDailyLightIntegral :=
  match new_state event with
  | None => Ok self
  | Some ns =>
      try_except
        (new_value <- float (state ns) ;;
         old_value <- old_value_of event ;;
         let increment := fsub new_value old_value in
         if fgt0 increment then
           Ok (_update_value
                 (set_data_points self (_data_points self ++ [(now, increment)])))
         else Ok self)
        ValueError_or_TypeError
        (Ok self)
  end.

(** [_update_sliding_window]; the argument [_now] is ignored by the code,
    [now] is the reading of [datetime.now()]. *)
Definition _update_sliding_window (self : PlantDailyLightIntegral)
    (_now : option datetime) (now : datetime) : PlantDailyLightIntegral :=
  match _data_points self with
  | [] => self
  | _ :: _ =>
      let cutoff := now - timedelta_hours 24 in
      _update_value
        (set_data_points self
           (filter (fun dp => (cutoff <=? fst dp)%Z) (_data_points self)))
  end.

(** An event whose new and old state are both present. *)
Definition event_of (new old : string) : Event :=
  {| new_state := Some {| state := new |};
     old_state := Some {| state := old |} |}.

(** ** Properties the specification talks about *)

(** The value is the rounded sum of the increments held in the window. *)
Definition backed_by_window (self : PlantDailyLightIntegral) : Prop :=
  _attr_native_value self = round2 (sum (map snd (_data_points self))).

(** [v'] is [v] increased by [d], up to the two roundings to 2 decimals. *)
Definition increases_by (v v' : pyfloat) (d : Q) : Prop :=
  match v, v' with
  | Fin a, Fin b => (Qabs (b - a - d) <= 1 # 100)%Q
  | _, _ => False
  end.

(** A strictly positive increment: what the test [increment > 0] accepts. *)
Definition positive (x : pyfloat) : Prop :=
  match x with
  | Fin a => (0 < a)%Q
  | PInf => True
  | NInf | NaN => False
  end.

Definition positive_increments (self : PlantDailyLightIntegral) : Prop :=
  Forall (fun dp => positive (snd dp)) (_data_points self).

(** The test of the list comprehension in [_update_sliding_window]. *)
Definition kept (now : datetime) (dp : datetime * pyfloat) : bool :=
  (now - timedelta_hours 24 <=? fst dp)%Z.

(** The calls that Home Assistant makes on the entity. [AddedToHass] names
    the base whose [async_added_to_hass] body runs: with the base of the
    code the call raises and leaves the entity alone, with [RestoreSensor]
    the restore goes through. *)
Inductive call : Type :=
| AddedToHass (base : sensor_base) (stored : option State)
| SourceChanged (event : Event) (now : datetime)
| UpdateSlidingWindow (_now : option datetime) (now : datetime).

Definition run_call (self : PlantDailyLightIntegral) (c : call)
    : result PlantDailyLightIntegral :=
  match c with
  | AddedToHass base stored => async_added_to_hass_of base self stored
  | SourceChanged event now => _source_changed self event now
  | UpdateSlidingWindow _now now => Ok (_update_sliding_window self _now now)
  end.

(** The states the entity can be in: constructed, then any calls. With
    [AddedToHass] open to both bases this holds every state the code
    reaches, and the states a working restore would add. *)
Inductive reachable : PlantDailyLightIntegral -> Prop :=
| reachable_init : reachable __init__
| reachable_call (self self' : PlantDailyLightIntegral) (c : call) :
    reachable self -> run_call self c = Ok self' -> reachable self'.

(** ** Order on the values *)

(** Python's [x <= y] on floats: nan compares false with everything. *)
Definition fle (x y : pyfloat) : Prop :=
  match x, y with
  | Fin a, Fin b => (a <= b)%Q
  | NaN, _ | _, NaN => False
  | NInf, _ => True
  | _, PInf => True
  | _, _ => False
  end.

(** [0 <= x] *)
Definition nonneg (x : pyfloat) : Prop := fle (Fin 0) x.

(** A number of hundredths: what [round(_, 2)] returns for a finite sum.
    The infinities and nan are not. *)
Definition two_decimals (x : pyfloat) : Prop :=
  match x with
  | Fin a => exists k : Z, (a == k # 100)%Q
  | PInf | NInf | NaN => False
  end.

(** ** The entity at run time *)

(** The states the code reaches: the constructed entity, then its three
    methods in any order ([async_added_to_hass] is listed although, as the
    class stands, it never returns). *)
Inductive running : PlantDailyLightIntegral -> Prop :=
| running_init : running __init__
| running_added (self self' : PlantDailyLightIntegral)
    (stored : option State) :
    running self -> async_added_to_hass self stored = Ok self' ->
    running self'
| running_source_changed (self self' : PlantDailyLightIntegral)
    (event : Event) (now : datetime) :
    running self -> _source_changed self event now = Ok self' -> running self'
| running_update_sliding_window (self : PlantDailyLightIntegral)
    (_now : option datetime) (now : datetime) :
    running self -> running (_update_sliding_window self _now now).

(** States reached with a clock that never goes back: [running_until t self]
    when no reading of [datetime.now()] so far was later than [t] and each
    reading was at least the one before. The start is the constructed
    entity, or what the restore leaves of it under either base. *)
Inductive running_until : datetime -> PlantDailyLightIntegral -> Prop :=
| until_init (t : datetime) : running_until t __init__
| until_added (t : datetime) (base : sensor_base) (stored : option State)
    (self : PlantDailyLightIntegral) :
    async_added_to_hass_of base __init__ stored = Ok self ->
    running_until t self
| until_source_changed (t : datetime) (self self' : PlantDailyLightIntegral)
    (event : Event) (now : datetime) :
    running_until t self -> t <= now ->
    _source_changed self event now = Ok self' -> running_until now self'
| until_update_sliding_window (t : datetime) (self : PlantDailyLightIntegral)
    (_now : option datetime) (now : datetime) :
    running_until t self -> t <= now ->
    running_until now (_update_sliding_window self _now now).

(** Timestamps in ascending order (equal neighbours allowed). *)
Fixpoint ascending (ts : list datetime) : Prop :=
  match ts with
  | [] => True
  | t :: rest => Forall (fun u => t <= u) rest /\ ascending rest
  end.

(** ** [PlantCurrentPpfd.ppfd] *)

(** What [ppfd] takes and returns: [None], a string, an int or a float. *)
Inductive pyvalue : Type :=
| VNone
| VStr (s : string)
| VInt (n : Z)
| VNum (x : pyfloat).

(** The least magnitude of an int that is too large for a double: half
    way between the largest double, [2^1024 - 2^971], and [2^1024]. *)
Definition int_too_large : Z := 2 ^ 1024 - 2 ^ 970.

(** [float(n)] for an int [n]. *)
Definition float_of_int (n : Z) : result pyfloat :=
  if Z.abs n <? int_too_large then Ok (Fin (inject_Z n))
  else Raise OverflowError.

(** [x * y] *)
Definition fmul (x y : pyfloat) : pyfloat :=
  let sign_of (a : Q) : comparison := (0 ?= a)%Q in
  let inf_times (positive_inf : bool) (c : comparison) : pyfloat :=
    match c with
    | Eq => NaN
    | Lt => if positive_inf then PInf else NInf
    | Gt => if positive_inf then NInf else PInf
    end in
  match x, y with
  | Fin a, Fin b => Fin (a * b)%Q
  | NaN, _ | _, NaN => NaN
  | PInf, Fin b => inf_times true (sign_of b)
  | NInf, Fin b => inf_times false (sign_of b)
  | Fin a, PInf => inf_times true (sign_of a)
  | Fin a, NInf => inf_times false (sign_of a)
  | PInf, PInf | NInf, NInf => PInf
  | PInf, NInf | NInf, PInf => NaN
  end.

(** [x / 1000000] *)
Definition fdiv_1000000 (x : pyfloat) : pyfloat :=
  match x with
  | Fin a => Fin (a / 1000000)%Q
  | PInf => PInf
  | NInf => NInf
  | NaN => NaN
  end.

(** [ppfd]. The constant [DEFAULT_LUX_TO_PPFD] comes from [const.py]; it is
    a parameter here, a finite number. *)
Definition ppfd (DEFAULT_LUX_TO_PPFD : Q) (value : pyvalue) : result pyvalue :=
  let convert (x : pyfloat) : pyvalue :=
    VNum (fdiv_1000000 (fmul x (Fin DEFAULT_LUX_TO_PPFD))) in
  match value with
  | VNone => Ok VNone
  | VStr s =>
      if (negb (String.eqb s STATE_UNAVAILABLE)
          && negb (String.eqb s STATE_UNKNOWN))%bool
      then x <- float s ;; Ok (convert x)
      else Ok (VStr s)
  | VInt n => x <- float_of_int n ;; Ok (convert x)
  | VNum x => Ok (convert x)
  end.

(** ** [PlantCurrentStatus]: the external sensor and its restore *)

Module Meter.

(** The [attributes] of a stored state, as a read-only mapping; the
    attributes read here hold a string or [None]. *)
Definition Attributes : Type := string -> option (option string).

(** The last state that [async_get_last_state()] returns. *)
Record LastState : Type := { attributes : Attributes }.

(** The attributes of [PlantCurrentStatus] that the modelled methods read
    or write. [tracked] lists the entity lists handed to
    [async_track_state_change_event], oldest first, and [written] counts the
    calls of [async_write_ha_state]. *)
Record PlantCurrentStatus : Type := {
  entity_id : string;
  _external_sensor : option string;
  _attr_native_value : pyvalue;
  tracked : list (list (option string));
  written : nat
}.

(** Truth value of a [str | None]. *)
Definition truthy (s : option string) : bool :=
  match s with
  | Some s' => negb (String.eqb s' "")
  | None => false
  end.

(** The [external_sensor] property. *)
Definition external_sensor (self : PlantCurrentStatus) : option string :=
  _external_sensor self.

(** The [extra_state_attributes] property: a dictionary with the one key
    "external_sensor", or [None] (the method falls off its end). *)
Definition extra_state_attributes (self : PlantCurrentStatus)
    : option Attributes :=
  if truthy (_external_sensor self)
  then Some (fun key =>
               if String.eqb key "external_sensor"
               then Some (external_sensor self)
               else None)
  else None.

(** [replace_external_sensor] *)
Definition replace_external_sensor (self : PlantCurrentStatus)
    (new_sensor : option string) : PlantCurrentStatus :=
  {| entity_id := entity_id self;
     _external_sensor := new_sensor;
     _attr_native_value := _attr_native_value self;
     tracked := tracked self ++ [[Some (entity_id self); new_sensor]];
     written := S (written self) |}.

(** [async_added_to_hass] of [PlantCurrentStatus]; [last_state] is what
    [async_get_last_state()] returned. *)
Definition async_added_to_hass (self : PlantCurrentStatus)
    (last_state : option LastState) : PlantCurrentStatus :=
  let self1 :=
    {| entity_id := entity_id self;
       _external_sensor := _external_sensor self;
       _attr_native_value := VStr STATE_UNKNOWN;
       tracked := tracked self;
       written := written self |} in
  let self2 :=
    match last_state with
    | Some st =>
        match attributes st "external_sensor" with
        | Some sensor => replace_external_sensor self1 sensor
        | None => self1
        end
    | None => self1
    end in
  let tracker :=
    [Some (entity_id self2)]
    ++ (if truthy (_external_sensor self2) then [_external_sensor self2] else []) in
  {| entity_id := entity_id self2;
     _external_sensor := _external_sensor self2;
     _attr_native_value := _attr_native_value self2;
     tracked := tracked self2 ++ [tracker];
     written := written self2 |}.

End Meter.

(** ** The model at work *)

(** *** [float] and [round] on literals *)

Example float_10 : float "10" = Ok (Fin 10).
Proof. reflexivity. Qed.

Example float_decimal : float " -1_0.25e1 " = Ok (Fin (- (1025 # 10))).
Proof. reflexivity. Qed.

Example float_point5 : float ".5" = Ok (Fin (5 # 10)).
Proof. reflexivity. Qed.

Example float_exp : float "12E-2" = Ok (Fin (12 # 100)).
Proof. reflexivity. Qed.

Example float_inf : float "-Infinity" = Ok NInf.
Proof. reflexivity. Qed.

Example float_nan : float "nan" = Ok NaN.
Proof. reflexivity. Qed.

Example float_unknown : float "unknown" = Raise ValueError.
Proof. reflexivity. Qed.

Example float_not_a_number : float "not_a_number" = Raise ValueError.
Proof. reflexivity. Qed.

Example float_bad : float "1_" = Raise ValueError /\ float "." = Raise ValueError
  /\ float "1e" = Raise ValueError /\ float "" = Raise ValueError
  /\ float "1 2" = Raise ValueError /\ float "_1" = Raise ValueError.
Proof. repeat split; reflexivity. Qed.

Example round2_example : round2 (Fin (15579 # 1000)) = Fin (779 # 50).
Proof. reflexivity. Qed.

Example round2_tie_even : round2 (Fin (125 # 1000)) = Fin (3 # 25)
  /\ round2 (Fin (135 # 1000)) = Fin (7 # 50)
  /\ round2 (Fin (- (125 # 1000))) = Fin (- (3 # 25)).
Proof. repeat split; reflexivity. Qed.

(** *** The unit tests of [tests/test_dli.py], replayed on the model *)

Example test_source_changed_valid_increment :
  exists s1 s2,
    _source_changed __init__ (event_of "10" "5") 1000 = Ok s1
    /\ _data_points s1 = [(1000, Fin 5)]
    /\ _attr_native_value s1 = Fin 5
    /\ _source_changed s1 (event_of "15" "10") 2000 = Ok s2
    /\ map snd (_data_points s2) = [Fin 5; Fin 5]
    /\ _attr_native_value s2 = Fin 10.
Proof. do 2 eexists. repeat split; reflexivity. Qed.

Example test_source_changed_invalid_states :
  _source_changed __init__ (event_of "unknown" "5") 1000 = Ok __init__
  /\ _source_changed __init__ (event_of "unavailable" "5") 1000 = Ok __init__
  /\ _source_changed __init__ (event_of "not_a_number" "5") 1000 = Ok __init__.
Proof. repeat split; reflexivity. Qed.

Example test_update_sliding_window :
  let now := timedelta_hours 1000 in
  let self := set_data_points __init__
    [(now - timedelta_hours 25, Fin 5); (now - timedelta_hours 12, Fin 10);
     (now, Fin 15)] in
  let self' := _update_sliding_window self None now in
  map snd (_data_points self') = [Fin 10; Fin 15]
  /\ _attr_native_value self' = Fin 25.
Proof. split; reflexivity. Qed.

Example test_negative_increments_ignored :
  _source_changed __init__ (event_of "5" "10") 1000 = Ok __init__.
Proof. reflexivity. Qed.

Example test_rounding :
  _attr_native_value
    (_update_value
       (set_data_points __init__ [(0, Fin (5123 # 1000)); (0, Fin (10456 # 1000))]))
  = Fin (779 # 50)
  /\ (779 # 50 == 1558 # 100)%Q.
Proof. split; reflexivity. Qed.

(** ** Arithmetic of the model *)

Section Rounding.

Local Open Scope Q_scope.

Lemma fadd_0_l (x : pyfloat) : fadd (Fin 0) x = x.
Proof.
  destruct x as [[n d] | | | ]; try reflexivity.
  unfold fadd, Qplus; simpl. now rewrite Z.mul_1_r.
Qed.

Lemma fgt0_positive (x : pyfloat) : fgt0 x = true <-> positive x.
Proof.
  destruct x as [a | | | ]; simpl; try tauto; try (split; [discriminate | tauto]).
  rewrite negb_true_iff. split; intros H.
  - apply Qnot_le_lt. intros Hle. apply Qle_bool_iff in Hle. congruence.
  - destruct (Qle_bool a 0) eqn:E; [| reflexivity].
    apply Qle_bool_iff in E. exfalso. exact (Qlt_not_le _ _ H E).
Qed.

Lemma fgt0_fsub_Fin (n o : Q) : fgt0 (fsub (Fin n) (Fin o)) = true <-> o < n.
Proof.
  rewrite fgt0_positive. simpl. split; intros H.
  - apply (Qplus_lt_l _ _ (- o)). now rewrite Qplus_opp_r.
  - apply (Qplus_lt_l _ _ (- o)) in H. now rewrite Qplus_opp_r in H.
Qed.

(** The nearest hundredth is at most half a hundredth away. *)
Lemma round_half_even_100_error (a : Q) :
  Qabs ((round_half_even_100 a # 100) - a) <= 1 # 200.
Proof.
  destruct a as [n d]. apply Qabs_Qle_condition.
  unfold round_half_even_100; simpl Qnum; simpl Qden.
  pose proof (Z.div_mod (n * 100) (Zpos d) ltac:(lia)) as Hdm.
  pose proof (Z.mod_pos_bound (n * 100) (Zpos d) ltac:(lia)) as Hr.
  set (f := (n * 100 / Zpos d)%Z) in *.
  set (r := ((n * 100) mod Zpos d)%Z) in *.
  destruct (Z.compare_spec (2 * r) (Zpos d)) as [E | E | E];
    [destruct (Z.even f) | | ];
    unfold Qle, Qminus, Qplus, Qopp; simpl;
    rewrite ?Pos2Z.inj_mul; split; nia.
Qed.

Lemma round2_Fin_error (a : Q) :
  exists b, round2 (Fin a) = Fin b /\ Qabs (b - a) <= 1 # 200.
Proof.
  eexists; split; [reflexivity |].
  rewrite Qred_correct. apply round_half_even_100_error.
Qed.

(** Two roundings: the rounded sum moves by the increment, to within 0.01. *)
Lemma round2_increases_by (s d : Q) :
  increases_by (round2 (Fin s)) (round2 (Fin (s + d))) d.
Proof.
  destruct (round2_Fin_error s) as (v & -> & Hv).
  destruct (round2_Fin_error (s + d)) as (v' & -> & Hv').
  change (Qabs (v' - v - d) <= 1 # 100).
  assert (E : v' - v - d == (v' - (s + d)) + - (v - s)) by ring.
  rewrite E.
  eapply Qle_trans; [apply Qabs_triangle |].
  rewrite Qabs_opp.
  assert (E2 : (1 # 100) == (1 # 200) + (1 # 200)) by reflexivity.
  rewrite E2. now apply Qplus_le_compat.
Qed.

End Rounding.

(** ** Facts about the methods *)

Lemma sum_snoc (xs : list pyfloat) (x : pyfloat) :
  sum (xs ++ [x]) = fadd (sum xs) x.
Proof. unfold sum. now rewrite fold_left_app. Qed.

(** A string that [float] accepts is neither of the two sentinels. *)
Lemma float_ok_not_sentinel (s : string) (v : pyfloat) :
  float s = Ok v -> not_unknown_or_unavailable s = true.
Proof.
  intros H. unfold not_unknown_or_unavailable.
  destruct (String.eqb_spec s STATE_UNKNOWN) as [-> | _]; [discriminate H |].
  destruct (String.eqb_spec s STATE_UNAVAILABLE) as [-> | _]; [discriminate H |].
  reflexivity.
Qed.

Lemma float_raises_ValueError (s : string) (e : exn) :
  float s = Raise e -> e = ValueError.
Proof. unfold float. destruct (parse_float s); congruence. Qed.

Lemma update_value_data_points (self : PlantDailyLightIntegral) :
  _data_points (_update_value self) = _data_points self.
Proof.
  unfold _update_value. destruct (_data_points self) eqn:E; simpl; exact E.
Qed.

Lemma update_value_native_value (self : PlantDailyLightIntegral) :
  _attr_native_value (_update_value self)
  = round2 (sum (map snd (_data_points self))).
Proof.
  unfold _update_value. destruct (_data_points self) eqn:E; reflexivity.
Qed.

Lemma update_value_backed (self : PlantDailyLightIntegral) :
  backed_by_window (_update_value self).
Proof.
  unfold backed_by_window.
  now rewrite update_value_native_value, update_value_data_points.
Qed.

Lemma update_value_ha_states (self : PlantDailyLightIntegral) :
  ha_states (_update_value self)
  = ha_states self ++ [_attr_native_value (_update_value self)].
Proof.
  unfold _update_value. destruct (_data_points self) eqn:E; reflexivity.
Qed.

(** [old_value] is always computed: the inner [try] swallows what [float]
    raises. *)
Lemma old_value_of_total (event : Event) :
  exists v, old_value_of event = Ok v.
Proof.
  unfold old_value_of. destruct (old_state event) as [os |]; [| now eexists].
  destruct (not_unknown_or_unavailable (state os)); [| now eexists].
  destruct (float (state os)) as [v | e] eqn:E; simpl; [now eexists |].
  rewrite (float_raises_ValueError _ _ E). now eexists.
Qed.

Lemma old_value_of_parsed (event : Event) (os : State) (v : pyfloat) :
  old_state event = Some os -> float (state os) = Ok v ->
  old_value_of event = Ok v.
Proof.
  intros Hos Hf. unfold old_value_of. rewrite Hos.
  rewrite (float_ok_not_sentinel _ _ Hf), Hf. reflexivity.
Qed.

(** The two ways out of [_source_changed] once the new state has parsed. *)
Lemma source_changed_accept (self : PlantDailyLightIntegral) (event : Event)
    (now : datetime) (ns : State) (new_value old_value : pyfloat) :
  new_state event = Some ns ->
  float (state ns) = Ok new_value ->
  old_value_of event = Ok old_value ->
  fgt0 (fsub new_value old_value) = true ->
  _source_changed self event now
  = Ok (_update_value
          (set_data_points self
             (_data_points self ++ [(now, fsub new_value old_value)]))).
Proof.
  intros Hns Hf Ho Hg. unfold _source_changed.
  rewrite Hns, Hf, Ho. simpl. now rewrite Hg.
Qed.

Lemma source_changed_reject (self : PlantDailyLightIntegral) (event : Event)
    (now : datetime) (ns : State) (new_value old_value : pyfloat) :
  new_state event = Some ns ->
  float (state ns) = Ok new_value ->
  old_value_of event = Ok old_value ->
  fgt0 (fsub new_value old_value) = false ->
  _source_changed self event now = Ok self.
Proof.
  intros Hns Hf Ho Hg. unfold _source_changed.
  rewrite Hns, Hf, Ho. simpl. now rewrite Hg.
Qed.

Lemma source_changed_no_float (self : PlantDailyLightIntegral) (event : Event)
    (now : datetime) (ns : State) (e : exn) :
  new_state event = Some ns ->
  float (state ns) = Raise e ->
  _source_changed self event now = Ok self.
Proof.
  intros Hns Hf. unfold _source_changed. rewrite Hns, Hf. simpl.
  now rewrite (float_raises_ValueError _ _ Hf).
Qed.

(** Every call of [_source_changed] returns, with the state as it was or
    with one accepted increment appended and the value recomputed. *)
Lemma source_changed_cases (self : PlantDailyLightIntegral) (event : Event)
    (now : datetime) :
  _source_changed self event now = Ok self
  \/ exists increment,
       fgt0 increment = true
       /\ _source_changed self event now
          = Ok (_update_value
                  (set_data_points self
                     (_data_points self ++ [(now, increment)]))).
Proof.
  destruct (new_state event) as [ns |] eqn:Hns;
    [| left; unfold _source_changed; now rewrite Hns].
  destruct (float (state ns)) as [nv | e] eqn:Hf;
    [| left; eapply source_changed_no_float; eassumption].
  destruct (old_value_of_total event) as [ov Ho].
  destruct (fgt0 (fsub nv ov)) eqn:Hg.
  - right. exists (fsub nv ov). split; [assumption |].
    eapply source_changed_accept; eassumption.
  - left. eapply source_changed_reject; eassumption.
Qed.

Lemma update_sliding_window_empty (self : PlantDailyLightIntegral)
    (_now : option datetime) (now : datetime) :
  _data_points self = [] -> _update_sliding_window self _now now = self.
Proof. intros H. unfold _update_sliding_window. now rewrite H. Qed.

Lemma update_sliding_window_nonempty (self : PlantDailyLightIntegral)
    (_now : option datetime) (now : datetime) :
  _data_points self <> [] ->
  _update_sliding_window self _now now
  = _update_value
      (set_data_points self (filter (kept now) (_data_points self))).
Proof.
  intros H. unfold _update_sliding_window.
  destruct (_data_points self); [congruence | reflexivity].
Qed.

Lemma update_sliding_window_data_points (self : PlantDailyLightIntegral)
    (_now : option datetime) (now : datetime) :
  _data_points (_update_sliding_window self _now now)
  = filter (kept now) (_data_points self).
Proof.
  destruct (_data_points self) as [| dp dps] eqn:E.
  - now rewrite update_sliding_window_empty, E.
  - rewrite update_sliding_window_nonempty by congruence.
    now rewrite update_value_data_points, E.
Qed.

Lemma filter_filter {A : Type} (p : A -> bool) (l : list A) :
  filter p (filter p l) = filter p l.
Proof.
  induction l as [| a l IH]; [reflexivity |]. simpl.
  destruct (p a) eqn:E; [simpl; now rewrite E, IH | assumption].
Qed.

(** Whatever the base, [async_added_to_hass] returns the entity as it was
    or with another value; the window and the written values stay. *)
Lemma added_to_hass_of_cases (base : sensor_base)
    (self self' : PlantDailyLightIntegral) (stored : option State) :
  async_added_to_hass_of base self stored = Ok self' ->
  self' = self \/ exists v, self' = set_native_value self v.
Proof.
  unfold async_added_to_hass_of, async_get_last_state.
  destruct (provides_async_get_last_state base); simpl; [| discriminate].
  destruct stored as [st |]; [| intros [= <-]; now left].
  destruct (not_unknown_or_unavailable (state st));
    [| intros [= <-]; now left].
  destruct (float (state st)) as [v | e] eqn:Hf; simpl.
  - intros [= <-]. right. now exists v.
  - rewrite (float_raises_ValueError _ _ Hf). simpl.
    intros [= <-]. right. now exists (Fin 0).
Qed.

(** With the base the class has, the method never returns. *)
Lemma added_to_hass_never_returns (self self' : PlantDailyLightIntegral)
    (stored : option State) :
  async_added_to_hass self stored <> Ok self'.
Proof. discriminate. Qed.

(** What the restore does under a base that has the method: the value is
    the stored state parsed by [float] when there is one that parses, and
    0 otherwise; the window stays empty. *)
Lemma added_to_hass_of_RestoreSensor (stored : option State) :
  exists self,
    async_added_to_hass_of RestoreSensor __init__ stored = Ok self
    /\ _data_points self = []
    /\ ha_states self = []
    /\ (forall st v, stored = Some st -> float (state st) = Ok v ->
          native_value self = v)
    /\ (stored = None -> native_value self = Fin 0)
    /\ (forall st, stored = Some st ->
          state st = STATE_UNKNOWN \/ state st = STATE_UNAVAILABLE
          \/ float (state st) = Raise ValueError ->
          native_value self = Fin 0).
Proof.
  unfold async_added_to_hass_of. simpl.
  destruct stored as [st |].
  - destruct (not_unknown_or_unavailable (state st)) eqn:Hs.
    + destruct (float (state st)) as [v | e] eqn:Hf.
      * eexists. split; [reflexivity |]. repeat (split; [reflexivity |]).
        split; [| split].
        -- intros st' v' [= <-] Hf'. simpl. congruence.
        -- discriminate.
        -- intros st' [= <-] [Hu | [Hu | Hu]].
           ++ rewrite Hu in Hf. discriminate Hf.
           ++ rewrite Hu in Hf. discriminate Hf.
           ++ congruence.
      * rewrite (float_raises_ValueError _ _ Hf). simpl.
        eexists. split; [reflexivity |]. repeat (split; [reflexivity |]).
        split; [| split]; try reflexivity.
        intros st' v' [= <-] Hf'. congruence.
    + eexists. split; [reflexivity |]. repeat (split; [reflexivity |]).
      split; [| split]; try reflexivity.
      intros st' v' [= <-] Hf'.
      rewrite (float_ok_not_sentinel _ _ Hf') in Hs. discriminate Hs.
  - eexists. split; [reflexivity |]. repeat (split; [reflexivity |]).
    split; [| split]; try reflexivity. discriminate.
Qed.

(** From one state the code reaches to the next, the value stays the
    rounded sum of the window. *)
Lemma backed_by_window_steps :
  backed_by_window __init__
  /\ (forall self event now self',
        _source_changed self event now = Ok self' ->
        _data_points self' <> _data_points self \/ backed_by_window self ->
        backed_by_window self')
  /\ (forall self _now now,
        _data_points self <> [] \/ backed_by_window self ->
        backed_by_window (_update_sliding_window self _now now)).
Proof.
  split; [reflexivity |]. split.
  - intros self event now self' Hrun Hor.
    destruct (source_changed_cases self event now) as [Hsame | (inc & _ & Hacc)].
    + assert (self' = self) as -> by congruence.
      destruct Hor as [Hne | Hb]; [congruence | exact Hb].
    + assert (self' = _update_value
                (set_data_points self (_data_points self ++ [(now, inc)])))
        as -> by congruence.
      apply update_value_backed.
  - intros self _now now Hor.
    destruct (_data_points self) as [| dp dps] eqn:E.
    + rewrite update_sliding_window_empty by assumption.
      destruct Hor as [Hne | Hb]; [congruence | exact Hb].
    + rewrite update_sliding_window_nonempty by congruence.
      apply update_value_backed.
Qed.

Lemma running_backed (self : PlantDailyLightIntegral) :
  running self -> backed_by_window self.
Proof.
  destruct backed_by_window_steps as (Hinit & Hsrc & Hsweep).
  induction 1 as [| self self' stored _ _ Hadd
                  | self self' event now _ IH Hrun
                  | self _now now _ IH].
  - exact Hinit.
  - now apply added_to_hass_never_returns in Hadd.
  - eapply Hsrc; [exact Hrun | now right].
  - apply Hsweep. now right.
Qed.

(** ** An accepted increment (C1) *)

(** C1 as it is written does not hold in every state the entity reaches:
    the source state "inf" is accepted as an increment, the sum of the
    window is infinite from then on, and the change from "5" to "6" appends
    its data point but leaves the published value at inf: the value after
    minus the value before is nan, not 1. *)
Lemma source_changed_infinite_window_counterexample :
  exists self self',
    _source_changed __init__ (event_of "inf" "5") 0 = Ok self
    /\ running self
    /\ _attr_native_value self = PInf
    /\ float "6" = Ok (Fin 6) /\ float "5" = Ok (Fin 5) /\ (5 < 6)%Q
    /\ _source_changed self (event_of "6" "5") 1 = Ok self'
    /\ _data_points self' = [(0, PInf); (1, Fin 1)]
    /\ _attr_native_value self' = PInf
    /\ fsub (_attr_native_value self') (_attr_native_value self) = NaN
    /\ ~ increases_by (_attr_native_value self) (_attr_native_value self')
           (6 - 5).
Proof.
  do 2 eexists. split; [reflexivity |].
  split; [apply (running_source_changed __init__ _ (event_of "inf" "5") 0);
          [exact running_init | reflexivity] |].
  repeat (split; [reflexivity |]).
  intros H. exact H.
Qed.

(** C1 (amended): when the new and the old state both parse to reals [n]
    and [o] with [o < n], [_source_changed] returns normally, appends the
    single data point [(now, n - o)] at the end of the window, sets the
    value to the rounded sum of the window and publishes it once; and in
    every state the entity reaches in which the sum of the increments
    already in the window is finite, the value increases by [n - o] up to
    the rounding, that is to within 0.01. *)
Theorem source_changed_appends_increment
    (self : PlantDailyLightIntegral) (event : Event) (now : datetime)
    (ns os : State) (n o : Q) :
  new_state event = Some ns ->
  old_state event = Some os ->
  float (state ns) = Ok (Fin n) ->
  float (state os) = Ok (Fin o) ->
  (o < n)%Q ->
  exists self',
    _source_changed self event now = Ok self'
    /\ _data_points self' = _data_points self ++ [(now, Fin (n - o))]
    /\ _attr_native_value self' = round2 (sum (map snd (_data_points self')))
    /\ ha_states self' = ha_states self ++ [_attr_native_value self']
    /\ (running self ->
        forall s : Q,
          sum (map snd (_data_points self)) = Fin s ->
          increases_by (_attr_native_value self) (_attr_native_value self')
            (n - o)).
Proof.
  intros Hns Hos Hn Ho Hlt.
  pose proof (old_value_of_parsed _ _ _ Hos Ho) as Hov.
  pose proof (proj2 (fgt0_fsub_Fin n o) Hlt) as Hg.
  eexists. split; [eapply source_changed_accept; eassumption |].
  rewrite update_value_data_points, update_value_native_value,
    update_value_ha_states, update_value_native_value.
  simpl _data_points. simpl ha_states.
  repeat (split; [reflexivity |]).
  intros Hr s Hs. pose proof (running_backed self Hr) as Hb.
  red in Hb. rewrite Hb, Hs.
  rewrite map_app. cbn [map snd]. rewrite sum_snoc, Hs.
  apply round2_increases_by.
Qed.

Lemma source_changed_appends_increment_witness :
  exists self',
    _source_changed __init__ (event_of "10" "5") 1000 = Ok self'
    /\ _data_points self' = [(1000, Fin 5)]
    /\ increases_by (Fin 0) (_attr_native_value self') 5.
Proof.
  destruct (source_changed_appends_increment __init__ (event_of "10" "5") 1000
              {| state := "10" |} {| state := "5" |} 10 5
              eq_refl eq_refl eq_refl eq_refl eq_refl)
    as (self' & Hrun & Hdps & _ & _ & Hinc).
  exists self'. split; [exact Hrun |]. split; [exact Hdps |].
  exact (Hinc running_init 0%Q eq_refl).
Defined.

(** ** The sweep (C2, C3, C10) *)

(** C2: after [_update_sliding_window] the window is the old window without
    the data points whose timestamp is before [now - 24h], in the old order;
    a data point is in the new window exactly when it was in the old one and
    its timestamp is not before the cutoff. One test, [dp[0] >= cutoff],
    decides for every point, so a point exactly at the cutoff is always
    kept. *)
Theorem update_sliding_window_removes_older
    (self : PlantDailyLightIntegral) (_now : option datetime) (now : datetime) :
  let cutoff := now - timedelta_hours 24 in
  let self' := _update_sliding_window self _now now in
  _data_points self'
  = filter (fun dp => cutoff <=? fst dp) (_data_points self)
  /\ (forall dp,
        In dp (_data_points self')
        <-> In dp (_data_points self) /\ ~ fst dp < cutoff)
  /\ (forall x, In (cutoff, x) (_data_points self) ->
        In (cutoff, x) (_data_points self')).
Proof.
  intros cutoff self'. subst self'.
  rewrite update_sliding_window_data_points.
  split; [reflexivity |].
  assert (Hin : forall dp,
    In dp (filter (kept now) (_data_points self))
    <-> In dp (_data_points self) /\ ~ fst dp < cutoff).
  { intros dp. rewrite filter_In. unfold kept. subst cutoff.
    rewrite Z.leb_le. split; intros [Hd Ht]; (split; [exact Hd | lia]). }
  split; [exact Hin |].
  intros x Hx. apply Hin. simpl. split; [exact Hx | lia].
Qed.

Lemma update_sliding_window_removes_older_witness :
  let now := timedelta_hours 1000 in
  _data_points
    (_update_sliding_window
       (set_data_points __init__
          [(now - timedelta_hours 24 - 1, Fin 5);
           (now - timedelta_hours 24, Fin 10); (now, Fin 15)])
       None now)
  = [(now - timedelta_hours 24, Fin 10); (now, Fin 15)].
Proof.
  intros now.
  rewrite (proj1 (update_sliding_window_removes_older _ None now)).
  reflexivity.
Defined.

(** C3 as it is written does not hold: a sweep that finds the window empty
    returns at once. Swept right after its construction, the entity has
    published nothing. *)
Lemma update_sliding_window_empty_counterexample :
  _data_points __init__ = []
  /\ ha_states __init__ = []
  /\ ha_states (_update_sliding_window __init__ None 0) = []
  /\ ~ (exists v,
          ha_states (_update_sliding_window __init__ None 0)
          = ha_states __init__ ++ [v]).
Proof.
  repeat (split; [reflexivity |]).
  intros [v H]. discriminate H.
Qed.

(** C3 (amended): every call of [_update_sliding_window] that finds the
    window non-empty publishes the recomputed value, once, whether or not
    it changed; the value is the rounded sum of what the sweep kept, and it
    is 0 when the sweep kept nothing. *)
Theorem update_sliding_window_publishes
    (self : PlantDailyLightIntegral) (_now : option datetime) (now : datetime) :
  _data_points self <> [] ->
  let self' := _update_sliding_window self _now now in
  ha_states self' = ha_states self ++ [_attr_native_value self']
  /\ _attr_native_value self' = round2 (sum (map snd (_data_points self')))
  /\ (_data_points self' = [] -> _attr_native_value self' = Fin 0).
Proof.
  intros Hne self'.
  assert (Hv : _attr_native_value self'
               = round2 (sum (map snd (_data_points self')))).
  { subst self'. rewrite update_sliding_window_nonempty by assumption.
    apply update_value_backed. }
  split; [| split; [exact Hv |]].
  - subst self'. rewrite update_sliding_window_nonempty by assumption.
    rewrite update_value_ha_states. reflexivity.
  - intros He. rewrite Hv, He. reflexivity.
Qed.

Lemma update_sliding_window_publishes_witness :
  let self := set_data_points __init__ [(0, Fin 5); (1, Fin 5)] in
  let self' := _update_sliding_window self None (timedelta_hours 25) in
  _data_points self' = [] /\ ha_states self' = [Fin 0].
Proof.
  intros self self'.
  destruct (update_sliding_window_publishes self None (timedelta_hours 25))
    as (Hp & _ & Hz); [discriminate |].
  split; [reflexivity |].
  fold self' in Hp, Hz. rewrite Hp, Hz; reflexivity.
Defined.

(** C10: sweeping twice with the same clock reading gives the window and
    the value of sweeping once. *)
Theorem update_sliding_window_idempotent
    (self : PlantDailyLightIntegral) (_now _now' : option datetime)
    (now : datetime) :
  let once := _update_sliding_window self _now now in
  let twice := _update_sliding_window once _now' now in
  _data_points twice = _data_points once
  /\ _attr_native_value twice = _attr_native_value once.
Proof.
  intros once twice.
  assert (Hd : _data_points twice = _data_points once).
  { subst twice once. rewrite !update_sliding_window_data_points.
    apply filter_filter. }
  split; [exact Hd |].
  destruct (_data_points self) as [| dp dps] eqn:Hself.
  - subst twice once.
    rewrite (update_sliding_window_empty self _now) by assumption.
    now rewrite (update_sliding_window_empty self _now') by assumption.
  - destruct (_data_points once) as [| dp' dps'] eqn:Honce.
    + subst twice. now rewrite update_sliding_window_empty by assumption.
    + assert (Ho : backed_by_window once).
      { subst once. rewrite update_sliding_window_nonempty by congruence.
        apply update_value_backed. }
      assert (Ht : backed_by_window twice).
      { subst twice. rewrite update_sliding_window_nonempty by congruence.
        apply update_value_backed. }
      red in Ho, Ht. rewrite Ht, Ho, Hd, Honce. reflexivity.
Qed.

(** ** The restore (C4) *)

(** C4: the code does not do what the claim says. The class derives from
    [SensorEntity], which has no [async_get_last_state], so
    [async_added_to_hass] leaves with [AttributeError] at that call,
    whatever is stored: nothing is restored, and the entity keeps the value
    of its constructor. A stored "12.5" does not become the value. *)
Theorem added_to_hass_raises_AttributeError
    (self : PlantDailyLightIntegral) (stored : option State) :
  async_added_to_hass self stored = Raise AttributeError
  /\ (forall self', async_added_to_hass self stored <> Ok self')
  /\ async_added_to_hass __init__ (Some {| state := "12.5" |})
     = Raise AttributeError
  /\ native_value __init__ = Fin 0.
Proof.
  split; [reflexivity |].
  split; [intros self'; apply added_to_hass_never_returns |].
  split; reflexivity.
Qed.

(** ** Ignored source changes (C5, C6) *)

(** C5 as it is written does not hold: "inf" does not parse to a real, and
    yet the change from "5" to "inf" is accepted: a data point with the
    increment inf is appended and inf is published. *)
Lemma source_changed_inf_counterexample :
  exists self',
    float "inf" = Ok PInf
    /\ (forall q : Q, float "inf" <> Ok (Fin q))
    /\ _source_changed __init__ (event_of "inf" "5") 0 = Ok self'
    /\ _data_points self' = [(0, PInf)]
    /\ _attr_native_value self' = PInf
    /\ ha_states self' = [PInf]
    /\ self' <> __init__.
Proof.
  eexists. split; [reflexivity |].
  split; [intros q; discriminate |].
  repeat (split; [reflexivity |]).
  discriminate.
Qed.

(** C5 (amended): when the event carries no new state, or the new state is
    "unknown" or "unavailable", or [float] rejects it, or [float] parses it
    to nan or to -inf, [_source_changed] returns normally and the entity is
    exactly as before: same window, same value, nothing published. *)
Theorem source_changed_ignores_malformed
    (self : PlantDailyLightIntegral) (event : Event) (now : datetime) :
  new_state event = None
  \/ (exists ns,
        new_state event = Some ns
        /\ (state ns = STATE_UNKNOWN \/ state ns = STATE_UNAVAILABLE
            \/ float (state ns) = Raise ValueError
            \/ float (state ns) = Ok NaN
            \/ float (state ns) = Ok NInf)) ->
  _source_changed self event now = Ok self.
Proof.
  intros [Hnone | (ns & Hns & Hbad)].
  - unfold _source_changed. now rewrite Hnone.
  - destruct (old_value_of_total event) as [ov Ho].
    destruct Hbad as [Hs | [Hs | [Hf | [Hf | Hf]]]].
    + eapply source_changed_no_float; [eassumption |].
      rewrite Hs. reflexivity.
    + eapply source_changed_no_float; [eassumption |].
      rewrite Hs. reflexivity.
    + eapply source_changed_no_float; eassumption.
    + eapply source_changed_reject; try eassumption. reflexivity.
    + eapply source_changed_reject; try eassumption. now destruct ov.
Qed.

Lemma source_changed_ignores_malformed_witness :
  _source_changed __init__ (event_of "unknown" "5") 1000 = Ok __init__
  /\ _source_changed __init__ (event_of "not_a_number" "5") 1000 = Ok __init__
  /\ _source_changed __init__ (event_of "-inf" "5") 1000 = Ok __init__
  /\ _source_changed __init__ {| new_state := None; old_state := None |} 1000
     = Ok __init__.
Proof.
  split; [| split; [| split]].
  - apply source_changed_ignores_malformed. right.
    exists {| state := "unknown" |}. split; [reflexivity |].
    left. reflexivity.
  - apply source_changed_ignores_malformed. right.
    exists {| state := "not_a_number" |}. split; [reflexivity |].
    right. right. left. reflexivity.
  - apply source_changed_ignores_malformed. right.
    exists {| state := "-inf" |}. split; [reflexivity |].
    right. right. right. right. reflexivity.
  - apply source_changed_ignores_malformed. left. reflexivity.
Defined.

(** C6: when the new state parses to the real [n], the old value the code
    computes is the real [o] (the parsed old state, or 0 when there is none
    to parse) and [n <= o], [_source_changed] returns normally and the
    entity is exactly as before: no data point appended, same value. *)
Theorem source_changed_discards_nonpositive
    (self : PlantDailyLightIntegral) (event : Event) (now : datetime)
    (ns : State) (n o : Q) :
  new_state event = Some ns ->
  float (state ns) = Ok (Fin n) ->
  old_value_of event = Ok (Fin o) ->
  (n <= o)%Q ->
  _source_changed self event now = Ok self.
Proof.
  intros Hns Hn Ho Hle.
  eapply source_changed_reject; try eassumption.
  destruct (fgt0 (fsub (Fin n) (Fin o))) eqn:Hg; [| reflexivity].
  apply fgt0_fsub_Fin in Hg. exfalso. exact (Qlt_not_le _ _ Hg Hle).
Qed.

Lemma source_changed_discards_nonpositive_witness :
  _source_changed __init__ (event_of "5" "10") 1000 = Ok __init__
  /\ _source_changed __init__ (event_of "7" "7") 1000 = Ok __init__.
Proof.
  split.
  - apply (source_changed_discards_nonpositive __init__ (event_of "5" "10")
             1000 {| state := "5" |} 5 10); reflexivity || discriminate.
  - apply (source_changed_discards_nonpositive __init__ (event_of "7" "7")
             1000 {| state := "7" |} 7 7); reflexivity || discriminate.
Defined.

(** ** The value and the window (C7, C9) *)

(** C7: in every state the entity reaches (constructed, then its methods
    in any order) the value equals round(sum of the increments in the
    window, 2); and there, a window holding 5.123 and 10.456 gives the
    published value 15.58. *)
Theorem value_is_rounded_sum (self : PlantDailyLightIntegral) :
  running self ->
  backed_by_window self
  /\ (forall t1 t2,
        let self' :=
          _update_value
            (set_data_points self
               [(t1, Fin (5123 # 1000)); (t2, Fin (10456 # 1000))]) in
        feq (_attr_native_value self') (Fin (1558 # 100))
        /\ ha_states self' = ha_states self ++ [_attr_native_value self']).
Proof.
  intros Hr. split; [now apply running_backed |].
  intros t1 t2 self'. split; reflexivity.
Qed.

Lemma value_is_rounded_sum_witness :
  exists self self',
    _source_changed __init__ (event_of "5.123" "0") 0 = Ok self
    /\ _source_changed self (event_of "15.579" "5.123") 1 = Ok self'
    /\ _attr_native_value self' = Fin (779 # 50)
    /\ backed_by_window self'.
Proof.
  do 2 eexists. repeat (split; [reflexivity |]).
  refine (proj1 (value_is_rounded_sum _ _)).
  apply (running_source_changed
           (_update_value
              (set_data_points __init__ [(0, Fin (5123 # 1000))])) _
           (event_of "15.579" "5.123") 1); [| reflexivity].
  apply (running_source_changed __init__ _ (event_of "5.123" "0") 0);
    [exact running_init | reflexivity].
Defined.

(** C9: with an empty window and any value [v] whatever, an accepted
    increment sets the value to the increment rounded to 2 decimals; [v]
    does not appear in the result. *)
Theorem first_increment_replaces_value
    (self : PlantDailyLightIntegral) (v : pyfloat) (event : Event)
    (now : datetime) (ns : State) (new_value old_value : pyfloat) :
  _data_points self = [] ->
  new_state event = Some ns ->
  float (state ns) = Ok new_value ->
  old_value_of event = Ok old_value ->
  fgt0 (fsub new_value old_value) = true ->
  exists self',
    _source_changed (set_native_value self v) event now = Ok self'
    /\ _data_points self' = [(now, fsub new_value old_value)]
    /\ _attr_native_value self' = round2 (fsub new_value old_value).
Proof.
  intros Hw Hns Hf Ho Hg.
  eexists. split; [eapply source_changed_accept; eassumption |].
  rewrite update_value_data_points, update_value_native_value.
  simpl _data_points. rewrite Hw.
  split; [reflexivity |].
  change (round2 (fadd (Fin 0) (fsub new_value old_value))
          = round2 (fsub new_value old_value)).
  now rewrite fadd_0_l.
Qed.

Lemma first_increment_replaces_value_witness :
  exists self',
    _source_changed (set_native_value __init__ (Fin 10)) (event_of "6" "5") 0
    = Ok self'
    /\ _attr_native_value self' = Fin 1.
Proof.
  destruct (first_increment_replaces_value __init__ (Fin 10) (event_of "6" "5")
              0 {| state := "6" |} (Fin 6) (Fin 5)
              eq_refl eq_refl eq_refl eq_refl eq_refl)
    as (self' & Hrun & _ & Hv).
  exists self'. split; [exact Hrun |]. rewrite Hv. reflexivity.
Defined.

(** ** Positive increments (C8) *)

Lemma run_call_data_points (self self' : PlantDailyLightIntegral) (c : call) :
  run_call self c = Ok self' ->
  _data_points self' = _data_points self
  \/ (exists now increment,
        positive increment
        /\ _data_points self' = _data_points self ++ [(now, increment)])
  \/ (exists now, _data_points self' = filter (kept now) (_data_points self)).
Proof.
  destruct c as [base stored | event now | _now now]; simpl; intros Hrun.
  - left. destruct (added_to_hass_of_cases _ _ _ _ Hrun) as [-> | [v ->]];
      reflexivity.
  - destruct (source_changed_cases self event now) as [H | (inc & Hp & H)];
      rewrite H in Hrun; injection Hrun as <-.
    + now left.
    + right. left. exists now, inc. split; [now apply fgt0_positive |].
      now rewrite update_value_data_points.
  - right. right. exists now. injection Hrun as <-.
    apply update_sliding_window_data_points.
Qed.

Lemma run_call_positive (self self' : PlantDailyLightIntegral) (c : call) :
  positive_increments self -> run_call self c = Ok self' ->
  positive_increments self'.
Proof.
  unfold positive_increments. intros Hp Hrun.
  destruct (run_call_data_points _ _ _ Hrun)
    as [-> | [(now & inc & Hinc & ->) | (now & ->)]].
  - exact Hp.
  - apply Forall_app. split; [exact Hp |]. now repeat constructor.
  - rewrite Forall_forall in *. intros dp Hin.
    apply filter_In in Hin. now apply Hp.
Qed.

(** C8: in every state the entity can reach, every data point of the
    window has a strictly positive increment; and every further call keeps
    it so, because a call leaves the window as it is, or appends one data
    point whose increment is positive, or only filters the window. *)
Theorem positive_increments_invariant (self : PlantDailyLightIntegral) :
  reachable self ->
  positive_increments self
  /\ (forall c self',
        run_call self c = Ok self' ->
        positive_increments self'
        /\ (_data_points self' = _data_points self
            \/ (exists now increment,
                  positive increment
                  /\ _data_points self' = _data_points self ++ [(now, increment)])
            \/ (exists now,
                  _data_points self' = filter (kept now) (_data_points self)))).
Proof.
  intros Hr.
  assert (Hp : positive_increments self).
  { induction Hr as [| self self' c Hr IH Hrun]; [constructor |].
    eapply run_call_positive; eassumption. }
  split; [exact Hp |].
  intros c self' Hrun. split.
  - eapply run_call_positive; eassumption.
  - eapply run_call_data_points; eassumption.
Qed.

Lemma positive_increments_invariant_witness :
  exists self',
    _source_changed __init__ (event_of "10" "5") 1000 = Ok self'
    /\ _data_points self' = [(1000, Fin 5)]
    /\ positive_increments self'.
Proof.
  eexists. split; [reflexivity |]. split; [reflexivity |].
  apply positive_increments_invariant.
  apply (reachable_call __init__ _ (SourceChanged (event_of "10" "5") 1000));
    [exact reachable_init | reflexivity].
Defined.

(** ** Beyond the claims: rounding keeps order and sign *)

Section RoundingOrder.

Local Open Scope Q_scope.

(** The rounded value is within half a hundredth, and a tie went to the
    even side. *)
Lemma round_half_even_100_spec (a : Q) :
  let k := round_half_even_100 a in
  let e := (2 * (k * Zpos (Qden a) - Qnum a * 100))%Z in
  (- Zpos (Qden a) <= e <= Zpos (Qden a))%Z
  /\ (e = Zpos (Qden a) \/ e = (- Zpos (Qden a))%Z -> Z.even k = true).
Proof.
  destruct a as [n d]. unfold round_half_even_100; simpl Qnum; simpl Qden.
  pose proof (Z.div_mod (n * 100) (Zpos d) ltac:(lia)) as Hdm.
  pose proof (Z.mod_pos_bound (n * 100) (Zpos d) ltac:(lia)) as Hr.
  set (f := (n * 100 / Zpos d)%Z) in *.
  set (r := ((n * 100) mod Zpos d)%Z) in *.
  destruct (Z.compare_spec (2 * r) (Zpos d)) as [E | E | E].
  - destruct (Z.even f) eqn:Hev; cbv zeta.
    + split; [lia |]. intros _. exact Hev.
    + split; [lia |]. intros _.
      replace (f + 1)%Z with (Z.succ f) by lia.
      rewrite Z.even_succ, <- Z.negb_even, Hev. reflexivity.
  - cbv zeta. split; [lia |]. intros [H | H]; exfalso; lia.
  - cbv zeta. split; [lia |]. intros [H | H]; exfalso; lia.
Qed.

Lemma round_half_even_100_mono (a b : Q) :
  a <= b -> (round_half_even_100 a <= round_half_even_100 b)%Z.
Proof.
  intros Hab.
  destruct (round_half_even_100_spec a) as [Ha Ta].
  destruct (round_half_even_100_spec b) as [Hb Tb].
  cbv zeta in *.
  set (k := round_half_even_100 a) in *.
  set (l := round_half_even_100 b) in *.
  destruct a as [n d], b as [m c]. unfold Qle in Hab.
  cbn [Qnum Qden] in *.
  assert (Hd : (0 < Zpos d)%Z) by lia.
  assert (Hc : (0 < Zpos c)%Z) by lia.
  set (D := Zpos d) in *. set (C := Zpos c) in *.
  destruct (Z_le_gt_dec k l) as [Hle | Hgt]; [exact Hle | exfalso].
  assert (H1 : (2 * (k * D - n * 100) * C <= D * C)%Z)
    by (apply Z.mul_le_mono_nonneg_r; lia).
  assert (H2 : (- C * D <= 2 * (l * C - m * 100) * D)%Z)
    by (apply Z.mul_le_mono_nonneg_r; lia).
  assert (H0 : (100 * (n * C) <= 100 * (m * D))%Z) by lia.
  assert (H3 : ((k - l) * (D * C) <= 1 * (D * C))%Z) by lia.
  assert (HDC : (0 < D * C)%Z) by lia.
  assert (Hk : k = (l + 1)%Z).
  { apply Z.mul_le_mono_pos_r in H3; lia. }
  subst k. rewrite Hk in *.
  assert (Ea : (2 * ((l + 1) * D - n * 100))%Z = D).
  { assert (E : (2 * ((l + 1) * D - n * 100) * C = D * C)%Z) by lia.
    apply Z.mul_cancel_r in E; lia. }
  assert (Eb : (2 * (l * C - m * 100))%Z = (- C)%Z).
  { assert (E : (2 * (l * C - m * 100) * D = - C * D)%Z) by lia.
    apply Z.mul_cancel_r in E; lia. }
  specialize (Ta (or_introl Ea)). specialize (Tb (or_intror Eb)).
  replace (l + 1)%Z with (Z.succ l) in Ta by lia.
  rewrite Z.even_succ, <- Z.negb_even, Tb in Ta. discriminate Ta.
Qed.

Lemma hundredths_le (k l : Z) : (k <= l)%Z -> Qred (k # 100) <= Qred (l # 100).
Proof.
  intros H. rewrite !Qred_correct. unfold Qle. simpl. lia.
Qed.

Lemma fle_refl (x : pyfloat) : nonneg x -> fle x x.
Proof. destruct x; simpl; try tauto. intros _. apply Qle_refl. Qed.

Lemma fle_trans (x y z : pyfloat) : fle x y -> fle y z -> fle x z.
Proof.
  destruct x, y, z; simpl; try tauto. apply Qle_trans.
Qed.

(** [round(_, 2)] keeps the order. *)
Lemma round2_mono (x y : pyfloat) : fle x y -> fle (round2 x) (round2 y).
Proof.
  destruct x as [a | | | ], y as [b | | | ]; simpl; try tauto.
  intros H. apply hundredths_le. now apply round_half_even_100_mono.
Qed.

Lemma round2_nonneg (x : pyfloat) : nonneg x -> nonneg (round2 x).
Proof. intros H. exact (round2_mono (Fin 0) x H). Qed.

Lemma round2_two_decimals (x : pyfloat) :
  nonneg x -> round2 x = PInf \/ two_decimals (round2 x).
Proof.
  destruct x as [a | | | ].
  - intros _. right. exists (round_half_even_100 a). apply Qred_correct.
  - intros _. now left.
  - intros [].
  - intros [].
Qed.

Lemma positive_nonneg (x : pyfloat) : positive x -> nonneg x.
Proof. destruct x; simpl; try tauto. apply Qlt_le_weak. Qed.

(** Adding a positive number to a non-negative one. *)
Lemma fadd_nonneg_positive (x y : pyfloat) :
  nonneg x -> positive y -> nonneg (fadd x y) /\ fle x (fadd x y).
Proof.
  destruct x as [a | | | ], y as [b | | | ]; simpl; try tauto.
  intros Ha Hb. apply Qlt_le_weak in Hb. split.
  - exact (Qplus_le_compat 0 a 0 b Ha Hb).
  - pose proof (Qplus_le_compat a a 0 b (Qle_refl a) Hb) as H.
    now rewrite Qplus_0_r in H.
Qed.

Lemma fadd_mono_l (x x' y : pyfloat) :
  nonneg x -> positive y -> fle x x' -> fle (fadd x y) (fadd x' y).
Proof.
  destruct x as [a | | | ], x' as [a' | | | ], y as [b | | | ];
    simpl; try tauto.
  intros _ _ H. apply Qplus_le_compat; [exact H | apply Qle_refl].
Qed.

End RoundingOrder.

(** ** Beyond the claims: sums over the window *)

Lemma fold_fadd_nonneg (xs : list pyfloat) (acc : pyfloat) :
  nonneg acc -> Forall positive xs -> nonneg (fold_left fadd xs acc).
Proof.
  revert acc. induction xs as [| x xs IH]; intros acc Ha Hp; [exact Ha |].
  inversion_clear Hp as [| ? ? Hx Hxs]. simpl. apply IH; [| exact Hxs].
  now apply fadd_nonneg_positive.
Qed.

Lemma positive_increments_map (dps : list (datetime * pyfloat)) :
  Forall (fun dp => positive (snd dp)) dps -> Forall positive (map snd dps).
Proof. intros H. rewrite Forall_map. exact H. Qed.

Lemma sum_nonneg (self : PlantDailyLightIntegral) :
  positive_increments self -> nonneg (sum (map snd (_data_points self))).
Proof.
  intros H. apply fold_fadd_nonneg; [apply Qle_refl |].
  now apply positive_increments_map.
Qed.

(** Dropping positive terms never makes the sum larger. *)
Lemma fold_fadd_filter_le (p : datetime * pyfloat -> bool)
    (dps : list (datetime * pyfloat)) (acc acc' : pyfloat) :
  nonneg acc -> fle acc acc' ->
  Forall (fun dp => positive (snd dp)) dps ->
  fle (fold_left fadd (map snd (filter p dps)) acc)
      (fold_left fadd (map snd dps) acc').
Proof.
  revert acc acc'.
  induction dps as [| dp dps IH]; intros acc acc' Ha Hle Hp; [exact Hle |].
  inversion_clear Hp as [| ? ? Hx Hxs].
  assert (Ha' : nonneg acc') by exact (fle_trans _ _ _ Ha Hle).
  simpl. destruct (p dp); simpl.
  - apply IH; [| | exact Hxs].
    + now apply fadd_nonneg_positive.
    + now apply fadd_mono_l.
  - apply IH; [exact Ha | | exact Hxs].
    eapply fle_trans; [exact Hle |]. now apply fadd_nonneg_positive.
Qed.

Lemma backed_value_nonneg (self : PlantDailyLightIntegral) :
  positive_increments self -> backed_by_window self ->
  nonneg (_attr_native_value self).
Proof.
  intros Hp Hb. rewrite Hb. apply round2_nonneg. now apply sum_nonneg.
Qed.

(** ** Beyond the claims: the value goes up with increments, down with
    sweeps *)

(** X1: when every increment of the window is positive and the value is
    the rounded sum of the window, [_update_sliding_window] never returns a
    larger value than it found. *)
Theorem update_sliding_window_never_raises_value
    (self : PlantDailyLightIntegral) (_now : option datetime) (now : datetime) :
  positive_increments self -> backed_by_window self ->
  fle (_attr_native_value (_update_sliding_window self _now now))
      (_attr_native_value self).
Proof.
  intros Hp Hb.
  destruct (_data_points self) as [| dp dps] eqn:E.
  - rewrite update_sliding_window_empty by assumption.
    apply fle_refl. now apply backed_value_nonneg.
  - rewrite update_sliding_window_nonempty by congruence.
    rewrite update_value_native_value. simpl _data_points.
    rewrite Hb, E. apply round2_mono. unfold sum.
    apply fold_fadd_filter_le; [apply Qle_refl | apply Qle_refl |].
    red in Hp. now rewrite E in Hp.
Qed.

Lemma update_sliding_window_never_raises_value_witness :
  let self :=
    _update_value
      (set_data_points __init__ [(0, Fin (25 # 10)); (10, Fin (5 # 10))]) in
  _attr_native_value self = Fin 3
  /\ fle (_attr_native_value
            (_update_sliding_window self None (timedelta_hours 24 + 5)))
         (_attr_native_value self).
Proof.
  intros self. split; [reflexivity |].
  apply update_sliding_window_never_raises_value.
  - repeat constructor.
  - reflexivity.
Defined.

(** X2: under the same two conditions, [_source_changed] never returns a
    smaller value than it found, whatever the event. *)
Theorem source_changed_never_lowers_value
    (self self' : PlantDailyLightIntegral) (event : Event) (now : datetime) :
  positive_increments self -> backed_by_window self ->
  _source_changed self event now = Ok self' ->
  fle (_attr_native_value self) (_attr_native_value self').
Proof.
  intros Hp Hb Hrun.
  destruct (source_changed_cases self event now) as [H | (inc & Hg & H)];
    rewrite H in Hrun; injection Hrun as <-.
  - apply fle_refl. now apply backed_value_nonneg.
  - rewrite update_value_native_value. simpl _data_points.
    rewrite Hb, map_app. cbn [map snd]. rewrite sum_snoc.
    apply round2_mono. apply fadd_nonneg_positive.
    + now apply sum_nonneg.
    + now apply fgt0_positive.
Qed.

Lemma source_changed_never_lowers_value_witness :
  exists self',
    _source_changed __init__ (event_of "10.004" "5") 0 = Ok self'
    /\ _attr_native_value self' = Fin 5
    /\ fle (_attr_native_value __init__) (_attr_native_value self').
Proof.
  eexists. split; [reflexivity |]. split; [reflexivity |].
  apply (source_changed_never_lowers_value __init__ _
           (event_of "10.004" "5") 0).
  - constructor.
  - reflexivity.
  - reflexivity.
Defined.

(** ** Beyond the claims: what holds while the entity runs *)

Lemma update_value_written_ok (self : PlantDailyLightIntegral) :
  positive_increments self ->
  nonneg (_attr_native_value (_update_value self))
  /\ (_attr_native_value (_update_value self) = PInf
      \/ two_decimals (_attr_native_value (_update_value self))).
Proof.
  intros Hp. rewrite update_value_native_value.
  pose proof (sum_nonneg self Hp) as Hs. split.
  - now apply round2_nonneg.
  - now apply round2_two_decimals.
Qed.

Lemma positive_increments_snoc (self : PlantDailyLightIntegral)
    (now : datetime) (increment : pyfloat) :
  positive_increments self -> fgt0 increment = true ->
  positive_increments
    (set_data_points self (_data_points self ++ [(now, increment)])).
Proof.
  intros Hp Hg. unfold positive_increments. simpl.
  apply Forall_app. split; [exact Hp |].
  repeat constructor. now apply fgt0_positive.
Qed.

Lemma positive_increments_filter (self : PlantDailyLightIntegral)
    (p : datetime * pyfloat -> bool) :
  positive_increments self ->
  positive_increments (set_data_points self (filter p (_data_points self))).
Proof.
  unfold positive_increments. simpl. rewrite !Forall_forall.
  intros Hp dp Hin. apply filter_In in Hin. now apply Hp.
Qed.

(** X3: in every state the entity reaches, the value and every value that
    was written with [async_write_ha_state] are non-negative (never nan,
    never below zero) and each is +inf or a number of hundredths; and
    every increment in the window is positive. *)
Theorem running_invariant (self : PlantDailyLightIntegral) :
  running self ->
  positive_increments self
  /\ nonneg (_attr_native_value self)
  /\ (_attr_native_value self = PInf \/ two_decimals (_attr_native_value self))
  /\ Forall (fun v => nonneg v /\ (v = PInf \/ two_decimals v))
       (ha_states self).
Proof.
  induction 1 as [| self self' stored _ _ Hadd
                  | self self' event now _ (Hp & Hn & Hd & Hw) Hrun
                  | self _now now _ (Hp & Hn & Hd & Hw)].
  - split; [constructor |]. split; [apply Qle_refl |].
    split; [| constructor]. right. exists 0. reflexivity.
  - now apply added_to_hass_never_returns in Hadd.
  - destruct (source_changed_cases self event now) as [H | (inc & Hg & H)];
      rewrite H in Hrun; injection Hrun as <-; [now repeat split |].
    pose proof (positive_increments_snoc self now inc Hp Hg) as Hp'.
    destruct (update_value_written_ok _ Hp') as [Hn' Hd'].
    split; [| split; [exact Hn' | split; [exact Hd' |]]].
    + unfold positive_increments. rewrite update_value_data_points.
      exact Hp'.
    + rewrite update_value_ha_states. apply Forall_app.
      split; [exact Hw |]. constructor; [now split | constructor].
  - destruct (_data_points self) as [| dp dps] eqn:E.
    + rewrite update_sliding_window_empty by assumption. now repeat split.
    + rewrite update_sliding_window_nonempty by congruence.
      pose proof (positive_increments_filter self (kept now) Hp) as Hp'.
      destruct (update_value_written_ok _ Hp') as [Hn' Hd'].
      split; [| split; [exact Hn' | split; [exact Hd' |]]].
      * unfold positive_increments. rewrite update_value_data_points.
        exact Hp'.
      * rewrite update_value_ha_states. apply Forall_app.
        split; [exact Hw |]. constructor; [now split | constructor].
Qed.

Lemma running_invariant_witness :
  exists self self',
    _source_changed __init__ (event_of "7.5" "5") 0 = Ok self
    /\ _source_changed self (event_of "inf" "7.5") 1 = Ok self'
    /\ ha_states self' = [Fin (5 # 2); PInf]
    /\ Forall (fun v => nonneg v /\ (v = PInf \/ two_decimals v))
         (ha_states self').
Proof.
  do 2 eexists. repeat (split; [reflexivity |]).
  refine (proj2 (proj2 (proj2 (running_invariant _ _)))).
  apply (running_source_changed
           (_update_value (set_data_points __init__ [(0, Fin (25 # 10))])) _
           (event_of "inf" "7.5") 1); [| reflexivity].
  apply (running_source_changed __init__ _ (event_of "7.5" "5") 0);
    [exact running_init | reflexivity].
Defined.

(** ** Beyond the claims: more on the sweep *)

Lemma filter_filter_implies {A : Type} (p q : A -> bool) (l : list A) :
  (forall a, q a = true -> p a = true) ->
  filter q (filter p l) = filter q l.
Proof.
  intros Hpq. induction l as [| a l IH]; [reflexivity |]. simpl.
  destruct (p a) eqn:Ep; simpl.
  - destruct (q a); now rewrite IH.
  - destruct (q a) eqn:Eq; [| exact IH].
    rewrite (Hpq a Eq) in Ep. discriminate Ep.
Qed.

Lemma update_sliding_window_backed_or_same (self : PlantDailyLightIntegral)
    (_now : option datetime) (now : datetime) :
  _data_points self <> [] ->
  backed_by_window (_update_sliding_window self _now now).
Proof.
  intros H. rewrite update_sliding_window_nonempty by assumption.
  apply update_value_backed.
Qed.

(** X4: a sweep followed by a later sweep leaves the window and the value
    that the later sweep alone would leave: sweeps that were run in between
    do not change what the entity ends with. *)
Theorem update_sliding_window_twice
    (self : PlantDailyLightIntegral) (_now _now' _now'' : option datetime)
    (earlier later : datetime) :
  earlier <= later ->
  let both :=
    _update_sliding_window (_update_sliding_window self _now earlier)
      _now' later in
  let only := _update_sliding_window self _now'' later in
  _data_points both = _data_points only
  /\ _attr_native_value both = _attr_native_value only.
Proof.
  intros Hle both only.
  assert (Hd : _data_points both = _data_points only).
  { subst both only. rewrite !update_sliding_window_data_points.
    apply filter_filter_implies. intros dp. unfold kept.
    rewrite !Z.leb_le. lia. }
  split; [exact Hd |].
  destruct (_data_points self) as [| dp dps] eqn:Hself.
  - subst both only.
    rewrite (update_sliding_window_empty self _now earlier) by assumption.
    rewrite (update_sliding_window_empty self _now' later) by assumption.
    now rewrite (update_sliding_window_empty self _now'' later) by assumption.
  - assert (Ho : backed_by_window only).
    { apply update_sliding_window_backed_or_same. congruence. }
    set (once := _update_sliding_window self _now earlier) in *.
    assert (H1 : backed_by_window once).
    { apply update_sliding_window_backed_or_same. congruence. }
    destruct (_data_points once) as [| dp' dps'] eqn:Honce.
    + assert (both = once) as Hb.
      { subst both. now apply update_sliding_window_empty. }
      red in Ho, H1. rewrite Hb, H1, Ho, <- Hd, Hb, Honce. reflexivity.
    + assert (Hb : backed_by_window both).
      { apply update_sliding_window_backed_or_same. congruence. }
      red in Ho, Hb. rewrite Hb, Ho, Hd. reflexivity.
Qed.

Lemma update_sliding_window_twice_witness :
  let self :=
    set_data_points __init__
      [(0, Fin 1); (timedelta_hours 1, Fin 2); (timedelta_hours 2, Fin 4)] in
  _data_points
    (_update_sliding_window
       (_update_sliding_window self None (timedelta_hours 24 + 1))
       None (timedelta_hours 25 + 1))
  = [(timedelta_hours 2, Fin 4)].
Proof.
  intros self.
  rewrite (proj1 (update_sliding_window_twice self None None None
                    (timedelta_hours 24 + 1) (timedelta_hours 25 + 1)
                    ltac:(discriminate))).
  reflexivity.
Defined.

(** X5: when the window is not empty and every data point in it is older
    than [now - 24h], the sweep empties the window, sets the value to 0 and
    writes that 0, whatever the value was. *)
Theorem update_sliding_window_all_stale
    (self : PlantDailyLightIntegral) (_now : option datetime) (now : datetime) :
  _data_points self <> [] ->
  Forall (fun dp => fst dp < now - timedelta_hours 24) (_data_points self) ->
  let self' := _update_sliding_window self _now now in
  _data_points self' = []
  /\ _attr_native_value self' = Fin 0
  /\ ha_states self' = ha_states self ++ [Fin 0].
Proof.
  intros Hne Hold self'.
  assert (Hd : _data_points self' = []).
  { subst self'. rewrite update_sliding_window_data_points. clear Hne.
    induction Hold as [| dp dps Hdp _ IH]; [reflexivity |].
    assert (Hk : kept now dp = false)
      by (unfold kept; apply Z.leb_gt; exact Hdp).
    cbn [filter]. rewrite Hk. exact IH. }
  destruct (update_sliding_window_publishes self _now now Hne)
    as (Hw & _ & Hz).
  fold self' in Hw, Hz. rewrite Hw, (Hz Hd). now repeat split.
Qed.

Lemma update_sliding_window_all_stale_witness :
  let self := set_native_value
                (set_data_points __init__ [(0, Fin 5); (3600000000, Fin 5)])
                (Fin 10) in
  let self' := _update_sliding_window self None (timedelta_hours 25 + 1) in
  _data_points self' = [] /\ _attr_native_value self' = Fin 0.
Proof.
  intros self self'.
  destruct (update_sliding_window_all_stale self None (timedelta_hours 25 + 1))
    as (Hd & Hv & _).
  - discriminate.
  - repeat constructor.
  - split; [exact Hd | exact Hv].
Defined.

(** X6: when the window is not empty and no data point in it is older than
    [now - 24h], the sweep leaves the window as it is and still writes the
    value once; the value it writes is the one it found whenever that was
    the rounded sum of the window. *)
Theorem update_sliding_window_nothing_stale
    (self : PlantDailyLightIntegral) (_now : option datetime) (now : datetime) :
  _data_points self <> [] ->
  Forall (fun dp => now - timedelta_hours 24 <= fst dp) (_data_points self) ->
  let self' := _update_sliding_window self _now now in
  _data_points self' = _data_points self
  /\ ha_states self' = ha_states self ++ [_attr_native_value self']
  /\ (backed_by_window self ->
      _attr_native_value self' = _attr_native_value self).
Proof.
  intros Hne Hnew self'.
  assert (Hd : _data_points self' = _data_points self).
  { subst self'. rewrite update_sliding_window_data_points. clear Hne.
    induction Hnew as [| dp dps Hdp _ IH]; [reflexivity |].
    assert (Hk : kept now dp = true)
      by (unfold kept; apply Z.leb_le; exact Hdp).
    cbn [filter]. rewrite Hk. now rewrite IH. }
  destruct (update_sliding_window_publishes self _now now Hne)
    as (Hw & Hv & _).
  fold self' in Hw, Hv.
  split; [exact Hd | split; [exact Hw |]].
  intros Hb. red in Hb. now rewrite Hv, Hd, Hb.
Qed.

Lemma update_sliding_window_nothing_stale_witness :
  let self :=
    _update_value (set_data_points __init__ [(0, Fin 5); (10, Fin 5)]) in
  let self' := _update_sliding_window self None (timedelta_hours 24) in
  _data_points self' = [(0, Fin 5); (10, Fin 5)]
  /\ ha_states self' = [Fin 10; Fin 10].
Proof.
  intros self self'.
  destruct (update_sliding_window_nothing_stale self None (timedelta_hours 24))
    as (Hd & Hw & Hv).
  - discriminate.
  - repeat constructor; discriminate.
  - split; [exact Hd |]. fold self' in Hw, Hv.
    rewrite Hw, (Hv eq_refl). reflexivity.
Defined.

(** ** Beyond the claims: the old state in [_source_changed] *)

Lemma old_value_of_missing (event : Event) :
  old_state event = None
  \/ (exists os,
        old_state event = Some os
        /\ (state os = STATE_UNKNOWN \/ state os = STATE_UNAVAILABLE
            \/ float (state os) = Raise ValueError)) ->
  old_value_of event = Ok (Fin 0).
Proof.
  unfold old_value_of. intros [-> | (os & -> & H)]; [reflexivity |].
  destruct H as [-> | [-> | Hf]]; [reflexivity | reflexivity |].
  rewrite Hf. simpl. now destruct (not_unknown_or_unavailable (state os)).
Qed.

(** X7: when there is no old state to subtract (none in the event, or
    "unknown", or "unavailable", or one [float] rejects), the old value is
    taken as 0, so a positive new reading [n] enters the window whole: the
    appended increment is [n - 0]. *)
Theorem source_changed_without_old_value
    (self : PlantDailyLightIntegral) (event : Event) (now : datetime)
    (ns : State) (n : Q) :
  new_state event = Some ns ->
  float (state ns) = Ok (Fin n) ->
  (0 < n)%Q ->
  old_state event = None
  \/ (exists os,
        old_state event = Some os
        /\ (state os = STATE_UNKNOWN \/ state os = STATE_UNAVAILABLE
            \/ float (state os) = Raise ValueError)) ->
  exists self',
    _source_changed self event now = Ok self'
    /\ _data_points self' = _data_points self ++ [(now, Fin (n - 0))]
    /\ (n - 0 == n)%Q
    /\ ha_states self' = ha_states self ++ [_attr_native_value self'].
Proof.
  intros Hns Hn Hpos Hold.
  pose proof (old_value_of_missing event Hold) as Ho.
  assert (Hg : fgt0 (fsub (Fin n) (Fin 0)) = true)
    by now apply fgt0_fsub_Fin.
  eexists. split; [eapply source_changed_accept; eassumption |].
  rewrite update_value_data_points, update_value_ha_states.
  split; [reflexivity |]. split; [| reflexivity].
  unfold Qminus. setoid_replace (- 0)%Q with 0%Q by reflexivity.
  apply Qplus_0_r.
Qed.

Lemma source_changed_without_old_value_witness :
  exists self',
    _source_changed __init__ (event_of "1234.5" "unavailable") 7 = Ok self'
    /\ _data_points self' = [(7, Fin (12345 # 10))].
Proof.
  destruct (source_changed_without_old_value __init__
              (event_of "1234.5" "unavailable") 7 {| state := "1234.5" |}
              (12345 # 10) eq_refl eq_refl eq_refl)
    as (self' & Hrun & Hd & _).
  - right. exists {| state := "unavailable" |}.
    split; [reflexivity |]. right. left. reflexivity.
  - exists self'. split; [exact Hrun |]. rewrite Hd. reflexivity.
Defined.

(** X8: a nan on either side is dropped without a trace: when the new
    state parses to nan, or the new state parses to anything and the old
    state parses to nan, [_source_changed] returns the entity as it was. *)
Theorem source_changed_ignores_nan
    (self : PlantDailyLightIntegral) (event : Event) (now : datetime)
    (ns : State) (new_value : pyfloat) :
  new_state event = Some ns ->
  float (state ns) = Ok new_value ->
  new_value = NaN
  \/ (exists os, old_state event = Some os /\ float (state os) = Ok NaN) ->
  _source_changed self event now = Ok self.
Proof.
  intros Hns Hf [-> | (os & Hos & Hof)].
  - destruct (old_value_of_total event) as [ov Ho].
    eapply source_changed_reject; try eassumption. reflexivity.
  - pose proof (old_value_of_parsed _ _ _ Hos Hof) as Ho.
    eapply source_changed_reject; try eassumption.
    now destruct new_value.
Qed.

Lemma source_changed_ignores_nan_witness :
  _source_changed __init__ (event_of "NaN" "5") 0 = Ok __init__
  /\ _source_changed __init__ (event_of "12" "nan") 0 = Ok __init__.
Proof.
  split.
  - apply (source_changed_ignores_nan __init__ (event_of "NaN" "5") 0
             {| state := "NaN" |} NaN eq_refl eq_refl).
    left. reflexivity.
  - apply (source_changed_ignores_nan __init__ (event_of "12" "nan") 0
             {| state := "12" |} (Fin 12) eq_refl eq_refl).
    right. exists {| state := "nan" |}. split; reflexivity.
Defined.

(** ** Beyond the claims: the window is in time order *)

Lemma ascending_snoc (ts : list datetime) (t : datetime) :
  ascending ts -> Forall (fun u => u <= t) ts -> ascending (ts ++ [t]).
Proof.
  induction ts as [| u ts IH]; intros Ha Hb; [now repeat constructor |].
  destruct Ha as [Hu Ha]. inversion_clear Hb as [| ? ? Hut Hts].
  simpl. split.
  - apply Forall_app. split; [exact Hu | now repeat constructor].
  - now apply IH.
Qed.

Lemma ascending_filter (p : datetime * pyfloat -> bool)
    (dps : list (datetime * pyfloat)) :
  ascending (map fst dps) -> ascending (map fst (filter p dps)).
Proof.
  induction dps as [| dp dps IH]; [trivial |].
  simpl. intros [Hd Ha]. destruct (p dp); [| now apply IH].
  simpl. split; [| now apply IH].
  rewrite Forall_map in *. rewrite Forall_forall in *.
  intros x Hx. apply filter_In in Hx. now apply Hd.
Qed.

(** In a window in time order the stale data points come first. *)
Lemma ascending_split (now : datetime) (dps : list (datetime * pyfloat)) :
  ascending (map fst dps) ->
  exists evicted,
    dps = evicted ++ filter (kept now) dps
    /\ Forall (fun dp => fst dp < now - timedelta_hours 24) evicted.
Proof.
  induction dps as [| dp dps IH]; intros Ha; [now exists [] |].
  destruct Ha as [Hd Ha]. cbn [filter].
  destruct (kept now dp) eqn:Hk.
  - exists []. split; [| constructor]. simpl. f_equal.
    symmetry. apply forallb_filter_id. apply forallb_forall.
    rewrite Forall_map in Hd. rewrite Forall_forall in Hd.
    intros x Hx. specialize (Hd x Hx). unfold kept in *.
    apply Z.leb_le in Hk. apply Z.leb_le. lia.
  - destruct (IH Ha) as (evicted & He & Hold).
    exists (dp :: evicted). split; [simpl; now f_equal |].
    constructor; [| exact Hold]. unfold kept in Hk.
    now apply Z.leb_gt in Hk.
Qed.

Lemma running_until_ascending (t : datetime) (self : PlantDailyLightIntegral) :
  running_until t self ->
  ascending (map fst (_data_points self))
  /\ Forall (fun u => u <= t) (map fst (_data_points self)).
Proof.
  intros Hr.
  induction Hr as [t
                  | t base stored self Hadd
                  | t self self' event now Hr (Ha & Hb) Hle Hrun
                  | t self _now now Hr (Ha & Hb) Hle].
  - now split.
  - destruct (added_to_hass_of_cases _ _ _ _ Hadd) as [-> | [v ->]];
      simpl; now split.
  - assert (Hb' : Forall (fun u => u <= now) (map fst (_data_points self))).
    { rewrite Forall_forall in *. intros u Hu. specialize (Hb u Hu). lia. }
    destruct (source_changed_cases self event now) as [H | (inc & _ & H)];
      rewrite H in Hrun; injection Hrun as <-; [now split |].
    rewrite update_value_data_points. simpl _data_points.
    rewrite map_app. cbn [map fst]. split.
    + now apply ascending_snoc.
    + apply Forall_app. split; [exact Hb' |]. repeat constructor. lia.
  - rewrite update_sliding_window_data_points. split.
    + now apply ascending_filter.
    + rewrite Forall_map in *. rewrite Forall_forall in *.
      intros dp Hdp. apply filter_In in Hdp.
      specialize (Hb dp (proj1 Hdp)). simpl in Hb. lia.
Qed.

(** X9: when the readings of [datetime.now()] never go back, the window
    is in ascending order of timestamp, and a sweep removes a front part of
    it and nothing else: the old window is the evicted data points, all
    older than [now - 24h], followed by the new window. *)
Theorem update_sliding_window_evicts_prefix
    (t : datetime) (self : PlantDailyLightIntegral)
    (_now : option datetime) (now : datetime) :
  running_until t self ->
  ascending (map fst (_data_points self))
  /\ exists evicted,
       _data_points self
       = evicted ++ _data_points (_update_sliding_window self _now now)
       /\ Forall (fun dp => fst dp < now - timedelta_hours 24) evicted.
Proof.
  intros Hr. destruct (running_until_ascending t self Hr) as [Ha _].
  split; [exact Ha |].
  rewrite update_sliding_window_data_points. now apply ascending_split.
Qed.

Lemma update_sliding_window_evicts_prefix_witness :
  exists self,
    _data_points self = [(10, Fin 5); (20, Fin 5)]
    /\ exists evicted,
         _data_points self
         = evicted
           ++ _data_points
                (_update_sliding_window self None (timedelta_hours 24 + 15))
         /\ Forall (fun dp => fst dp < 15) evicted.
Proof.
  exists (_update_value
            (set_data_points
               (_update_value (set_data_points __init__ [(10, Fin 5)]))
               [(10, Fin 5); (20, Fin 5)])).
  split; [reflexivity |].
  refine (proj2 (update_sliding_window_evicts_prefix 20 _ None
                   (timedelta_hours 24 + 15) _)).
  apply (until_source_changed 10
           (_update_value (set_data_points __init__ [(10, Fin 5)])) _
           (event_of "10" "5") 20);
    [| discriminate | reflexivity].
  apply (until_source_changed 0 __init__ _ (event_of "5" "0") 10);
    [| discriminate | reflexivity].
  exact (until_init 0).
Defined.

(** ** Beyond the claims: [ppfd] *)

(** X10: [ppfd] hands [None], "unknown" and "unavailable" back untouched.
    It raises in two cases and no other: [ValueError] on a string that is
    neither sentinel and that [float] rejects, and [OverflowError] on an
    int too large for a float; in both it always raises, for unlike
    [_source_changed] it has no [try] around [float]. *)
Theorem ppfd_errors (DEFAULT_LUX_TO_PPFD : Q) (value : pyvalue) :
  (value = VNone \/ value = VStr STATE_UNKNOWN
   \/ value = VStr STATE_UNAVAILABLE ->
   ppfd DEFAULT_LUX_TO_PPFD value = Ok value)
  /\ (forall e,
        ppfd DEFAULT_LUX_TO_PPFD value = Raise e <->
        (e = ValueError
         /\ exists s,
              value = VStr s /\ s <> STATE_UNKNOWN /\ s <> STATE_UNAVAILABLE
              /\ float s = Raise ValueError)
        \/ (e = OverflowError
            /\ exists n, value = VInt n /\ int_too_large <= Z.abs n)).
Proof.
  split.
  - intros [-> | [-> | ->]]; reflexivity.
  - intros e. split.
    + destruct value as [| s | n | x]; cbn [ppfd]; try discriminate.
      * destruct (String.eqb_spec s STATE_UNAVAILABLE) as [-> | Hna];
          [discriminate |].
        destruct (String.eqb_spec s STATE_UNKNOWN) as [-> | Hnk];
          [discriminate |].
        cbn [negb andb].
        destruct (float s) as [x | e'] eqn:Hf; cbn [bind]; [discriminate |].
        intros [= <-]. pose proof (float_raises_ValueError _ _ Hf) as ->.
        left. split; [reflexivity |]. exists s. now repeat split.
      * unfold float_of_int.
        destruct (Z.ltb_spec (Z.abs n) int_too_large) as [Hlt | Hge];
          cbn [bind]; [discriminate |].
        intros [= <-]. right. split; [reflexivity |]. now exists n.
    + intros [(-> & s & -> & Hnk & Hna & Hf) | (-> & n & -> & Hge)];
        cbn [ppfd].
      * destruct (String.eqb_spec s STATE_UNAVAILABLE) as [-> | _];
          [congruence |].
        destruct (String.eqb_spec s STATE_UNKNOWN) as [-> | _];
          [congruence |].
        cbn [negb andb]. now rewrite Hf.
      * unfold float_of_int.
        destruct (Z.ltb_spec (Z.abs n) int_too_large) as [Hlt | _];
          [lia | reflexivity].
Qed.

Lemma ppfd_errors_witness :
  ppfd (185 # 10000) (VStr "unavailable") = Ok (VStr "unavailable")
  /\ ppfd (185 # 10000) (VStr "dark") = Raise ValueError
  /\ ppfd (185 # 10000) (VInt (- 2 ^ 1024)) = Raise OverflowError.
Proof.
  destruct (ppfd_errors (185 # 10000) (VStr "unavailable")) as [Hs _].
  destruct (ppfd_errors (185 # 10000) (VStr "dark")) as [_ Hr].
  destruct (ppfd_errors (185 # 10000) (VInt (- 2 ^ 1024))) as [_ Ho].
  split; [| split].
  - apply Hs. right. right. reflexivity.
  - apply Hr. left. split; [reflexivity |].
    exists "dark". repeat split; (discriminate || reflexivity).
  - apply Ho. right. split; [reflexivity |].
    exists (- 2 ^ 1024). split; [reflexivity |]. vm_compute. discriminate.
Defined.

(** X11: with a conversion constant that is not negative, [ppfd] keeps the
    order of two finite readings and maps a non-negative reading to a
    non-negative flux. *)
Theorem ppfd_monotone (DEFAULT_LUX_TO_PPFD : Q) (s1 s2 : string) (a b : Q) :
  (0 <= DEFAULT_LUX_TO_PPFD)%Q ->
  float s1 = Ok (Fin a) ->
  float s2 = Ok (Fin b) ->
  (a <= b)%Q ->
  exists x y,
    ppfd DEFAULT_LUX_TO_PPFD (VStr s1) = Ok (VNum (Fin x))
    /\ ppfd DEFAULT_LUX_TO_PPFD (VStr s2) = Ok (VNum (Fin y))
    /\ (x <= y)%Q
    /\ ((0 <= a)%Q -> (0 <= x)%Q).
Proof.
  intros HK H1 H2 Hab.
  assert (Hs : forall s v, float s = Ok v ->
            (negb (String.eqb s STATE_UNAVAILABLE)
             && negb (String.eqb s STATE_UNKNOWN))%bool = true).
  { intros s v Hf. pose proof (float_ok_not_sentinel s v Hf) as Hn.
    unfold not_unknown_or_unavailable in Hn.
    rewrite negb_orb in Hn. now rewrite andb_comm. }
  exists (a * DEFAULT_LUX_TO_PPFD / 1000000)%Q,
         (b * DEFAULT_LUX_TO_PPFD / 1000000)%Q.
  unfold ppfd. rewrite (Hs _ _ H1), (Hs _ _ H2), H1, H2.
  split; [reflexivity |]. split; [reflexivity |].
  assert (Hinv : (0 <= / 1000000)%Q) by (unfold Qle; simpl; lia).
  split.
  - unfold Qdiv. apply Qmult_le_compat_r; [| exact Hinv].
    now apply Qmult_le_compat_r.
  - intros Ha. unfold Qdiv. apply Qmult_le_0_compat; [| exact Hinv].
    now apply Qmult_le_0_compat.
Qed.

Lemma ppfd_monotone_witness :
  exists x y,
    ppfd (185 # 10000) (VStr "1000") = Ok (VNum (Fin x))
    /\ ppfd (185 # 10000) (VStr "20000") = Ok (VNum (Fin y))
    /\ (x <= y)%Q.
Proof.
  destruct (ppfd_monotone (185 # 10000) "1000" "20000" 1000 20000)
    as (x & y & Hx & Hy & Hle & _); try reflexivity; try discriminate.
  exists x, y. now repeat split.
Defined.

(** ** Beyond the claims: the external sensor of a meter survives a
    restart *)

(** X12: the attributes that [extra_state_attributes] gives for a meter
    with an external sensor bring that sensor back: when the last state
    holds them, [async_added_to_hass] of a newly constructed meter, whatever
    sensor its configuration named, ends with the saved sensor, tracks it
    together with the meter's own id in its last registration, and has the
    value "unknown" (the value itself is not restored). *)
Theorem external_sensor_round_trip
    (saved fresh : Meter.PlantCurrentStatus) (attrs : Meter.Attributes)
    (last_state : Meter.LastState) :
  Meter.extra_state_attributes saved = Some attrs ->
  (forall key v, attrs key = Some v ->
     Meter.attributes last_state key = Some v) ->
  let restored := Meter.async_added_to_hass fresh (Some last_state) in
  Meter._external_sensor restored = Meter._external_sensor saved
  /\ Meter._attr_native_value restored = VStr STATE_UNKNOWN
  /\ (exists older,
        Meter.tracked restored
        = older ++ [[Some (Meter.entity_id fresh);
                     Meter._external_sensor saved]]).
Proof.
  intros Hattrs Hheld restored.
  unfold Meter.extra_state_attributes in Hattrs.
  destruct (Meter.truthy (Meter._external_sensor saved)) eqn:Ht;
    [| discriminate Hattrs].
  injection Hattrs as <-.
  assert (Hk : Meter.attributes last_state "external_sensor"
               = Some (Meter._external_sensor saved)).
  { apply Hheld. reflexivity. }
  subst restored. unfold Meter.async_added_to_hass. rewrite Hk. simpl.
  rewrite Ht. split; [reflexivity |]. split; [reflexivity |].
  eexists. reflexivity.
Qed.

Lemma external_sensor_round_trip_witness :
  let saved :=
    {| Meter.entity_id := "plant.rose_moisture";
       Meter._external_sensor := Some "sensor.soil_2";
       Meter._attr_native_value := VStr "41";
       Meter.tracked := [];
       Meter.written := 0 |} in
  let fresh :=
    {| Meter.entity_id := "plant.rose_moisture";
       Meter._external_sensor := Some "sensor.soil_1";
       Meter._attr_native_value := VNum (Fin 0);
       Meter.tracked := [];
       Meter.written := 0 |} in
  exists attrs,
    Meter.extra_state_attributes saved = Some attrs
    /\ Meter._external_sensor
         (Meter.async_added_to_hass fresh
            (Some {| Meter.attributes := attrs |}))
       = Some "sensor.soil_2".
Proof.
  intros saved fresh. eexists. split; [reflexivity |].
  refine (proj1 (external_sensor_round_trip saved fresh _
                   {| Meter.attributes := _ |} eq_refl _)).
  intros key v H. exact H.
Defined.
